(** * AI Receptionist: the in-call conversation orchestration

    A shallow embedding of [backend/services/ai_handler.py],
    [backend/services/telephony.py] and [backend/api/webhooks.py], and
    the properties of the call lifecycle established on it.

    Layout: Python values and exceptions; the built-ins the handlers
    rely on; the voice markup; the conversation handler; the durable
    store; the three webhooks; a reference runtime; the properties. *)

From Stdlib Require Import ZArith String Ascii List Lia Sorted.
From stdpp Require Import base option strings gmap.
Import ListNotations.

Local Open Scope string_scope.
Local Open Scope Z_scope.

Set Warnings "-register-all".

(* ===================================================================== *)
(** ** Python values *)
(* ===================================================================== *)

(** The values the handlers manipulate: what [json.loads] returns, what
    a JSON column holds, and the entries of the dict literals of the
    source. A number keeps its lexeme. *)
Inductive pyval : Type :=
| PyNone
| PyBool (b : bool)
| PyNum (lexeme : string)
| PyStr (s : string)
| PyList (items : list pyval)
| PyDict (entries : list (pyval * pyval)).

(** A dict, in insertion order. *)
Abbreviation pydict := (list (pyval * pyval)).

Inductive exn_type : Type :=
| TypeError | ValueError | AttributeError | IndexError | KeyError
| JSONDecodeError | MultipleResultsFound | APIError | DatabaseError.

(** An exception: its class and [str(e)]. The messages of the
    interpreter's own exceptions follow CPython's wording in outline;
    no property depends on them. *)
Record exn : Type := Exn { exn_class : exn_type; exn_str : string }.

(** A computation that returns or raises. *)
Inductive result (A : Type) : Type :=
| Ok (a : A)
| Raise (e : exn).
Arguments Ok {A} a.
Arguments Raise {A} e.

Definition bind {A B : Type} (m : result A) (k : A -> result B) : result B :=
  match m with
  | Ok a => k a
  | Raise e => Raise e
  end.

Notation "'let*' x ':=' m 'in' k" := (bind m (fun x => k))
  (at level 10, x name, m at level 100, k at level 200).

(** [try: body except Exception as e: handler(e)] *)
Definition try_except {A : Type} (body : result A) (handler : exn -> A) : A :=
  match body with
  | Ok a => a
  | Raise e => handler e
  end.

Definition nl : string := String "010" EmptyString.

(** The built-ins whose results depend on number parsing, on Unicode
    tables or on the interpreter's formatting. The handlers call them;
    the general properties are proved for every such runtime. *)
Class PyRuntime : Type := {
  (** [json.loads(text)] *)
  json_loads : string -> result pyval;
  (** [repr(v)] *)
  py_repr : pyval -> string;
  (** whether the number written [lexeme] equals zero *)
  num_is_zero : string -> bool;
  (** [a == b] for two values among numbers and booleans *)
  scalar_eq : pyval -> pyval -> bool;
  (** the characters of a str, one string each *)
  str_chars : string -> list string;
  (** [s.lower()] *)
  str_lower : string -> string;
  (** [s.strip()] *)
  str_strip : string -> string
}.

Section Builtins.
Context `{PyRuntime}.

(** Truth value of [v] in a condition. *)
Definition truthy (v : pyval) : bool :=
  match v with
  | PyNone => false
  | PyBool b => b
  | PyNum lexeme => negb (num_is_zero lexeme)
  | PyStr s => negb (String.eqb s "")
  | PyList items => match items with [] => false | _ => true end
  | PyDict entries => match entries with [] => false | _ => true end
  end.

(** [str(v)], as an f-string formats [v]. *)
Definition py_str (v : pyval) : string :=
  match v with
  | PyStr s => s
  | PyNone => "None"
  | PyBool true => "True"
  | PyBool false => "False"
  | _ => py_repr v
  end.

Fixpoint all_chars (p : ascii -> bool) (s : string) : bool :=
  match s with
  | EmptyString => true
  | String c rest => p c && all_chars p rest
  end.

(** An int is written with a sign and digits only. *)
Definition is_int_lexeme (lexeme : string) : bool :=
  all_chars (fun c => Ascii.eqb c "-" || ((48 <=? nat_of_ascii c) && (nat_of_ascii c <=? 57))%nat) lexeme.

Definition type_name (v : pyval) : string :=
  match v with
  | PyNone => "NoneType"
  | PyBool _ => "bool"
  | PyNum lexeme => if is_int_lexeme lexeme then "int" else "float"
  | PyStr _ => "str"
  | PyList _ => "list"
  | PyDict _ => "dict"
  end.

(** [v == s] for a str literal [s]. *)
Definition is_str (v : pyval) (s : string) : bool :=
  match v with
  | PyStr t => String.eqb t s
  | _ => false
  end.

(** [a == b] on dict keys. *)
Definition key_eq (a b : pyval) : bool :=
  match a, b with
  | PyStr s, PyStr t => String.eqb s t
  | PyStr _, _ | _, PyStr _ => false
  | PyNone, PyNone => true
  | PyNone, _ | _, PyNone => false
  | _, _ => scalar_eq a b
  end.

Definition hashable (v : pyval) : bool :=
  match v with
  | PyList _ | PyDict _ => false
  | _ => true
  end.

(** [d.get(k)] with a str key; [None] here is the key being absent. *)
Fixpoint lookup_key (d : pydict) (k : string) : option pyval :=
  match d with
  | [] => None
  | (k', v) :: rest => if is_str k' k then Some v else lookup_key rest k
  end.

(** [d.get(k, default)] *)
Definition get_default (d : pydict) (k : string) (default : pyval) : pyval :=
  match lookup_key d k with
  | Some v => v
  | None => default
  end.

(** [d.get(k)] *)
Definition get (d : pydict) (k : string) : pyval := get_default d k PyNone.

(** [d[k] = v] for a hashable [k]: an existing key keeps its place. *)
Fixpoint setitem (d : pydict) (k v : pyval) : pydict :=
  match d with
  | [] => [(k, v)]
  | (k', v') :: rest =>
      if key_eq k' k then (k', v) :: rest else (k', v') :: setitem rest k v
  end.

(** [d.update(other)] for a dict [other]. *)
Definition update_dict (d other : pydict) : pydict :=
  fold_left (fun acc kv => setitem acc (fst kv) (snd kv)) other d.

(** One element of an iterable handed to [d.update]: a key and a value. *)
Definition pair_of (item : pyval) : result (pyval * pyval) :=
  match item with
  | PyList [k; v] => Ok (k, v)
  | PyDict [(k1, _); (k2, _)] => Ok (k1, k2)
  | PyStr s =>
      match str_chars s with
      | [a; b] => Ok (PyStr a, PyStr b)
      | _ => Raise (Exn ValueError "dictionary update sequence element has the wrong length; 2 is required")
      end
  | PyList _ | PyDict _ =>
      Raise (Exn ValueError "dictionary update sequence element has the wrong length; 2 is required")
  | _ => Raise (Exn TypeError "cannot convert dictionary update sequence element to a sequence")
  end.

(** [d.update(items)] for a list: the elements before a failing one
    have been stored when the exception leaves. *)
Fixpoint update_pairs (d : pydict) (items : list pyval) : pydict * option exn :=
  match items with
  | [] => (d, None)
  | item :: rest =>
      match pair_of item with
      | Raise e => (d, Some e)
      | Ok (k, v) =>
          if hashable k then update_pairs (setitem d k v) rest
          else (d, Some (Exn TypeError ("unhashable type: '" +:+ type_name k +:+ "'")))
      end
  end.

(** [d.update(v)]: the dict afterwards, and the exception raised if any. *)
Definition dict_update (d : pydict) (v : pyval) : pydict * option exn :=
  match v with
  | PyDict other => (update_dict d other, None)
  | PyList items => update_pairs d items
  | PyStr s =>
      if String.eqb s "" then (d, None)
      else (d, Some (Exn ValueError "dictionary update sequence element #0 has length 1; 2 is required"))
  | _ => (d, Some (Exn TypeError ("'" +:+ type_name v +:+ "' object is not iterable")))
  end.

(** Every element a str, or the first that is not. *)
Fixpoint all_strs (items : list pyval) : result (list string) :=
  match items with
  | [] => Ok []
  | PyStr s :: rest => let* tl := all_strs rest in Ok (s :: tl)
  | v :: _ =>
      Raise (Exn TypeError ("sequence item: expected str instance, " +:+ type_name v +:+ " found"))
  end.

(** [sep.join(v)] *)
Definition py_join (sep : string) (v : pyval) : result string :=
  match v with
  | PyList items => let* strs := all_strs items in Ok (String.concat sep strs)
  | PyDict entries => let* strs := all_strs (map fst entries) in Ok (String.concat sep strs)
  | PyStr s => Ok (String.concat sep (str_chars s))
  | _ => Raise (Exn TypeError "can only join an iterable")
  end.

(** [needle in s] for two strs. *)
Definition substring_of (needle s : string) : bool :=
  match String.index 0 needle s with
  | Some _ => true
  | None => false
  end.

(** [s[n:]] *)
Fixpoint str_drop (n : nat) (s : string) : string :=
  match n, s with
  | O, _ => s
  | S n', String _ rest => str_drop n' rest
  | S _, EmptyString => EmptyString
  end.

(** [s.replace(old, '')] for a non-empty [old]; [fuel] bounds the scan
    by the length of [s]. *)
Fixpoint remove_all (fuel : nat) (old s : string) : string :=
  match fuel with
  | O => s
  | S fuel' =>
      match s with
      | EmptyString => EmptyString
      | String c rest =>
          if String.prefix old s
          then remove_all fuel' old (str_drop (String.length old) s)
          else String c (remove_all fuel' old rest)
      end
  end.

Definition str_remove (old s : string) : string :=
  remove_all (String.length s) old s.

End Builtins.

(* ===================================================================== *)
(** ** Voice markup ([services/telephony.py]) *)
(* ===================================================================== *)

(** A TwiML document as the verbs appended to a [VoiceResponse], in
    order; rendering it to text is the provider library's. *)
Inductive verb : Type :=
| Say (message : pyval) (voice : string)
| Gather (input action method speechTimeout language : string) (body : list verb)
| Redirect (url : string)
| Hangup
| Dial (number : string).

Abbreviation twiml := (list verb).

Definition speech_gather (body : list verb) : verb :=
  Gather "speech" "/api/webhooks/twilio/handle-input" "POST" "auto" "en-US" body.

Definition create_greeting_response (greeting_message : pyval) (voice : string) : twiml :=
  [ speech_gather [Say greeting_message voice];
    Say (PyStr "I didn't catch that. How may I help you?") voice;
    Redirect "/api/webhooks/twilio/voice" ].

Definition create_response (message : pyval) (voice : string)
    (gather_input end_call : bool) : twiml :=
  if end_call then
    [Say message voice; Hangup]
  else if gather_input then
    [ speech_gather [Say message voice];
      Say (PyStr "Are you still there?") voice;
      Redirect "/api/webhooks/twilio/voice" ]
  else
    [Say message voice].

Section Telephony.
Context `{PyRuntime}.

Definition transfer_call (phone_number : string) (message : pyval) (voice : string) : twiml :=
  ((if truthy message then [Say message voice] else []) ++ [Dial phone_number])%list.

End Telephony.

(** The default of the [voice] parameter. *)
Definition default_voice : string := "Polly.Joanna".

(* ===================================================================== *)
(** ** The language-model client and the environment of one request *)
(* ===================================================================== *)

Record function_call : Type := FunctionCall {
  fc_name : string;
  fc_arguments : string
}.

(** [response.choices[i].message] *)
Record chat_message : Type := ChatMessage {
  content : option string;
  message_function_call : option function_call
}.

(** The arguments of [client.chat.completions.create]; of the function
    schemas only the names are kept. *)
Record chat_request : Type := ChatRequest {
  req_model : string;
  req_messages : list pydict;
  req_temperature : option string;
  req_max_tokens : Z;
  req_functions : list string
}.

(** The sites at which a webhook talks to the durable store. *)
Inductive db_op : Type :=
| SelectBusinessByNumber | CommitNewCall | RefreshCall | SelectPrompts
| SelectCall | CommitCall | SelectBusinessById.

(** What the outside world answers during one webhook invocation: the
    model's completion for a request (its [choices], or the exception
    the call raises) and, per store operation, the exception it raises
    if it fails. *)
Record env : Type := Env {
  chat_create : chat_request -> result (list chat_message);
  db_fault : db_op -> option exn
}.

(* ===================================================================== *)
(** ** The conversation handler ([services/ai_handler.py]) *)
(* ===================================================================== *)

(** An [AIConversationHandler]: [client] is the API key the client was
    built with, [None] when the key is not configured. *)
Record AIConversationHandler : Type := Handler {
  business_context : pydict;
  client : option string;
  conversation_history : list pydict
}.

(** A dict literal with str keys. *)
Definition dict_of (entries : list (string * pyval)) : pydict :=
  map (fun kv => (PyStr (fst kv), snd kv)) entries.

(** [{"role": role, "content": content}] *)
Definition chat_entry (role : string) (content : pyval) : pydict :=
  dict_of [("role", PyStr role); ("content", content)].

Definition of_option (o : option string) : pyval :=
  match o with
  | Some s => PyStr s
  | None => PyNone
  end.

(** [AIConversationHandler(business_context=ctx)] under the configured
    [OPENAI_API_KEY]. *)
Definition new_handler (OPENAI_API_KEY : option string) (ctx : pydict) : AIConversationHandler :=
  {| business_context := ctx;
     client := match OPENAI_API_KEY with
               | Some key => if String.eqb key "" then None else Some key
               | None => None
               end;
     conversation_history := [] |}.

Definition is_configured (h : AIConversationHandler) : bool :=
  match client h with Some _ => true | None => false end.

Definition upper_ascii (c : ascii) : ascii :=
  let n := nat_of_ascii c in
  if ((97 <=? n) && (n <=? 122))%nat then ascii_of_nat (n - 32) else c.

Definition lower_ascii (c : ascii) : ascii :=
  let n := nat_of_ascii c in
  if ((65 <=? n) && (n <=? 90))%nat then ascii_of_nat (n + 32) else c.

Fixpoint map_string (f : ascii -> ascii) (s : string) : string :=
  match s with
  | EmptyString => EmptyString
  | String c rest => String (f c) (map_string f rest)
  end.

(** [s.capitalize()] on the ASCII day names. *)
Definition capitalize (s : string) : string :=
  match s with
  | EmptyString => EmptyString
  | String c rest => String (upper_ascii c) (map_string lower_ascii rest)
  end.

Definition days : list string :=
  ["monday"; "tuesday"; "wednesday"; "thursday"; "friday"; "saturday"; "sunday"].

Definition default_hours : string := "Monday-Friday: 9:00 AM - 5:00 PM".

Section Handler.
Context `{PyRuntime}.

(** [needle in container] *)
Definition contains (container : pyval) (needle : string) : result bool :=
  match container with
  | PyDict entries =>
      Ok (match lookup_key entries needle with Some _ => true | None => false end)
  | PyList items => Ok (existsb (fun v => is_str v needle) items)
  | PyStr s => Ok (substring_of needle s)
  | _ => Raise (Exn TypeError ("argument of type '" +:+ type_name container +:+ "' is not iterable"))
  end.

(** [container[key]] for a str key *)
Definition getitem (container : pyval) (key : string) : result pyval :=
  match container with
  | PyDict entries =>
      match lookup_key entries key with
      | Some v => Ok v
      | None => Raise (Exn KeyError key)
      end
  | PyList _ => Raise (Exn TypeError "list indices must be integers or slices, not str")
  | PyStr _ => Raise (Exn TypeError "string indices must be integers")
  | _ => Raise (Exn TypeError ("'" +:+ type_name container +:+ "' object is not subscriptable"))
  end.

(** [v.get(key, default)]: only a dict has the method. *)
Definition method_get (v : pyval) (key : string) (default : pyval) : result pyval :=
  match v with
  | PyDict entries => Ok (get_default entries key default)
  | _ => Raise (Exn AttributeError ("'" +:+ type_name v +:+ "' object has no attribute 'get'"))
  end.

(** One turn of the loop of [_format_hours]: the lines it appends. *)
Definition format_day (hours : pyval) (day : string) : result (list string) :=
  let* present := contains hours day in
  if (present : bool) then
    let* day_hours := getitem hours day in
    let* closed := method_get day_hours "closed" PyNone in
    if truthy closed then Ok [capitalize day +:+ ": Closed"]
    else
      let* opens := method_get day_hours "open" (PyStr "9:00") in
      let* closes := method_get day_hours "close" (PyStr "17:00") in
      Ok [capitalize day +:+ ": " +:+ py_str opens +:+ " - " +:+ py_str closes]
  else Ok [].

Fixpoint format_days (hours : pyval) (ds : list string) : result (list string) :=
  match ds with
  | [] => Ok []
  | day :: rest =>
      let* lines := format_day hours day in
      let* more := format_days hours rest in
      Ok (lines ++ more)%list
  end.

Definition _format_hours (hours : pyval) : result string :=
  if negb (truthy hours) then Ok default_hours
  else
    let* formatted := format_days hours days in
    Ok (match formatted with
        | [] => default_hours
        | _ => String.concat nl formatted
        end).

Definition build_system_prompt (business : pydict) : result string :=
  let* hours := _format_hours (get_default business "business_hours" (PyDict [])) in
  let* services := py_join ", " (get_default business "services" (PyList [PyStr "General services"])) in
  Ok ("You are an AI receptionist for " +:+ py_str (get_default business "name" (PyStr "our office")) +:+ ".
Your role is to professionally and warmly assist callers with their needs.

BUSINESS INFORMATION:
- Name: " +:+ py_str (get_default business "name" (PyStr "N/A")) +:+ "
- Type: " +:+ py_str (get_default business "business_type" (PyStr "dental office")) +:+ "
- Phone: " +:+ py_str (get_default business "phone_number" (PyStr "N/A")) +:+ "
- Address: " +:+ py_str (get_default business "address_line1" (PyStr "N/A")) +:+ ", "
     +:+ py_str (get_default business "city" (PyStr "")) +:+ ", "
     +:+ py_str (get_default business "state" (PyStr "")) +:+ " "
     +:+ py_str (get_default business "zip_code" (PyStr "")) +:+ "

BUSINESS HOURS:
" +:+ hours +:+ "

SERVICES OFFERED:
" +:+ services +:+ "

PERSONALITY GUIDELINES:
" +:+ py_str (get_default business "ai_personality"
                (PyStr "Be professional, friendly, and helpful. Speak clearly and concisely.")) +:+ "

IMPORTANT RULES:
1. Always be polite and professional
2. Never make up information you don't have
3. If you can't help with something, offer to transfer to a human
4. For emergencies, advise calling 911 if life-threatening
5. Collect necessary information for appointments (name, phone, preferred date/time, reason)
6. Confirm information back to the caller before proceeding
7. Keep responses concise and natural for voice conversation

AVAILABLE ACTIONS:
- Schedule appointment (requires: name, phone, date, time, reason)
- Answer questions about services, hours, location
- Cancel or reschedule existing appointments
- Transfer to human staff
- Take a message
").

(** The trigger phrases of a prompt as [add_prompts_to_context] reads
    them: a str is decoded, and kept whole as the only phrase when it
    does not decode. *)
Definition decode_triggers (triggers : pyval) : pyval :=
  match triggers with
  | PyStr text => try_except (json_loads text) (fun _ => PyList [PyStr text])
  | _ => triggers
  end.

(** The fields to collect: a str is decoded, and read as no field when
    it does not decode. *)
Definition decode_fields (fields : pyval) : pyval :=
  match fields with
  | PyStr text => try_except (json_loads text) (fun _ => PyList [])
  | _ => fields
  end.

(** What one turn of the loop of [add_prompts_to_context] appends to
    [prompt_context]. *)
Definition prompt_section (prompt : pydict) : result string :=
  let triggers := decode_triggers (get_default prompt "trigger_phrases" (PyList [])) in
  let* mentions := py_join ", " triggers in
  let section :=
    nl +:+ "When caller mentions: " +:+ mentions +:+ nl
    +:+ "Category: " +:+ py_str (get_default prompt "category" (PyStr "general")) +:+ nl
    +:+ "Response: " +:+ py_str (get_default prompt "content" (PyStr "")) +:+ nl
    +:+ "Instructions: "
    +:+ py_str (get_default prompt "ai_instructions" (PyStr "Respond naturally")) +:+ nl in
  if truthy (get prompt "requires_info_collection") then
    let fields := decode_fields (get_default prompt "fields_to_collect" (PyList [])) in
    let* collect := py_join ", " fields in
    Ok (section +:+ "Collect: " +:+ collect +:+ nl)
  else Ok section.

Fixpoint prompt_sections (prompts : list pydict) : result string :=
  match prompts with
  | [] => Ok ""
  | prompt :: rest =>
      let* section := prompt_section prompt in
      let* more := prompt_sections rest in
      Ok (section +:+ more)
  end.

(** The handler afterwards, or the exception that left the loop (the
    context is assigned only after the loop). *)
Definition add_prompts_to_context (self : AIConversationHandler) (prompts : list pydict)
    : result AIConversationHandler :=
  match prompts with
  | [] => Ok self
  | _ =>
      let* sections := prompt_sections prompts in
      let prompt_context := nl +:+ nl +:+ "CUSTOM PROMPTS AND RESPONSES:" +:+ nl +:+ sections in
      Ok {| business_context :=
              setitem (business_context self) (PyStr "custom_prompts") (PyStr prompt_context);
            client := client self;
            conversation_history := conversation_history self |}
  end.

(** [text + v]: concatenation is defined between two strs. *)
Definition str_add (text : string) (v : pyval) : result string :=
  match v with
  | PyStr t => Ok (text +:+ t)
  | _ => Raise (Exn TypeError ("can only concatenate str (not '" +:+ type_name v +:+ "') to str"))
  end.

Definition _get_action_response (action : string) (data : pyval) : result string :=
  if String.eqb action "schedule_appointment" then
    let* preferred_date := method_get data "preferred_date" PyNone in
    let* preferred_time := method_get data "preferred_time" PyNone in
    let* patient_name := method_get data "patient_name" PyNone in
    Ok ("I've scheduled your appointment for " +:+ py_str preferred_date +:+ " at "
        +:+ py_str preferred_time +:+ ". We'll see you then, " +:+ py_str patient_name +:+ "!")
  else if String.eqb action "transfer_call" then
    Ok "I'll transfer you to one of our staff members now. Please hold."
  else if String.eqb action "end_call" then
    Ok "Thank you for calling! Have a great day."
  else Ok "".

(** [choices[0]] *)
Definition first_choice (choices : list chat_message) : result chat_message :=
  match choices with
  | message :: _ => Ok message
  | [] => Raise (Exn IndexError "list index out of range")
  end.

(** The request of a conversational turn. *)
Definition turn_request (messages : list pydict) : chat_request :=
  {| req_model := "gpt-4o";
     req_messages := messages;
     req_temperature := Some "0.7";
     req_max_tokens := 300;
     req_functions := ["schedule_appointment"; "transfer_call"; "end_call"] |}.

(** The body of the [try] of [process_input]: the [result] dict it
    builds, or the exception that reaches the [except] clause. *)
Definition completion (e : env) (messages : list pydict) : result pydict :=
  let* choices := chat_create e (turn_request messages) in
  let* message := first_choice choices in
  match message_function_call message with
  | Some call =>
      let function_name := fc_name call in
      let* function_args := json_loads (fc_arguments call) in
      let* response :=
        match content message with
        | Some text =>
            if String.eqb text "" then _get_action_response function_name function_args
            else Ok text
        | None => _get_action_response function_name function_args
        end in
      Ok (dict_of [("response", PyStr response);
                   ("action", PyStr function_name);
                   ("action_data", function_args)])
  | None =>
      Ok (dict_of [("response", of_option (content message));
                   ("action", PyNone);
                   ("action_data", PyNone)])
  end.

Definition append_history (self : AIConversationHandler) (entry : pydict)
    : AIConversationHandler :=
  {| business_context := business_context self;
     client := client self;
     conversation_history := (conversation_history self ++ [entry])%list |}.

(** The [messages] of the request, as [process_input] assembles them
    before the [try]. *)
Definition build_messages (self : AIConversationHandler) (collected_info : pydict)
    : result (list pydict) :=
  let* base_prompt := build_system_prompt (business_context self) in
  let* system_prompt :=
    str_add base_prompt (get_default (business_context self) "custom_prompts" (PyStr "")) in
  Ok ([chat_entry "system" (PyStr system_prompt)]
      ++ (if truthy (PyDict collected_info)
          then [chat_entry "system"
                  (PyStr ("Information collected so far: " +:+ py_str (PyDict collected_info)))]
          else [])
      ++ conversation_history self)%list.

(** [await self.process_input(user_input, collected_info)]: what the
    call returns or raises, and the handler afterwards. Only what
    happens before the [try] can raise. *)
Definition process_input (e : env) (self : AIConversationHandler)
    (user_input : string) (collected_info : pydict)
    : result pydict * AIConversationHandler :=
  match client self with
  | None =>
      (Ok (dict_of
             [("response", PyStr "I apologize, but I'm having technical difficulties. Please hold while I transfer you to our staff.");
              ("action", PyStr "transfer");
              ("error", PyStr "OpenAI not configured")]),
       self)
  | Some _ =>
      let self := append_history self (chat_entry "user" (PyStr user_input)) in
      match build_messages self collected_info with
      | Raise ex => (Raise ex, self)
      | Ok messages =>
          match completion e messages with
          | Ok result =>
              (Ok result, append_history self (chat_entry "assistant" (get result "response")))
          | Raise ex =>
              (Ok (dict_of
                     [("response", PyStr "I apologize, but I'm experiencing some issues. Let me transfer you to our staff.");
                      ("action", PyStr "transfer");
                      ("error", PyStr (exn_str ex))]),
               self)
          end
      end
  end.

(** The content of the first choice, stripped; [None] has no [strip]. *)
Definition stripped_content (choices : list chat_message) : result string :=
  let* message := first_choice choices in
  match content message with
  | Some text => Ok (str_strip text)
  | None => Raise (Exn AttributeError "'NoneType' object has no attribute 'strip'")
  end.

Definition analyze_sentiment (e : env) (self : AIConversationHandler) (text : string) : string :=
  match client self with
  | None => "neutral"
  | Some _ =>
      try_except
        (let* choices :=
           chat_create e
             {| req_model := "gpt-4o-mini";
                req_messages :=
                  [chat_entry "system" (PyStr "Analyze the sentiment of this text. Respond with only one word: positive, neutral, or negative.");
                   chat_entry "user" (PyStr text)];
                req_temperature := None;
                req_max_tokens := 10;
                req_functions := [] |} in
         let* stripped := stripped_content choices in
         let sentiment := str_lower stripped in
         if existsb (String.eqb sentiment) ["positive"; "neutral"; "negative"]
         then Ok sentiment
         else Ok "neutral")
        (fun _ => "neutral")
  end.

Definition summarize_call (e : env) (self : AIConversationHandler) : string :=
  match client self, conversation_history self with
  | None, _ | _, [] => "No conversation to summarize."
  | Some _, history =>
      try_except
        (let conversation_text :=
           String.concat nl
             (map (fun msg => py_str (get msg "role") +:+ ": " +:+ py_str (get msg "content"))
                  history) in
         let* choices :=
           chat_create e
             {| req_model := "gpt-4o-mini";
                req_messages :=
                  [chat_entry "system" (PyStr "Summarize this phone conversation in 2-3 sentences. Focus on what the caller wanted and what was accomplished.");
                   chat_entry "user" (PyStr conversation_text)];
                req_temperature := None;
                req_max_tokens := 150;
                req_functions := [] |} in
         stripped_content choices)
        (fun _ => "Unable to generate summary.")
  end.

End Handler.

(* ===================================================================== *)
(** ** The durable store ([models/], as the webhooks use it) *)
(* ===================================================================== *)

Module Business.
(** A row of [businesses]: the columns the webhooks read. *)
Record t : Type := Row {
  id : Z;
  name : string;
  business_type : option string;
  phone_number : option string;
  address_line1 : option string;
  city : option string;
  state : option string;
  zip_code : option string;
  business_hours : pyval;
  services : pyval;
  ai_voice : option string;
  ai_personality : option string;
  greeting_message : option string;
  twilio_phone_number : option string
}.
End Business.

Module Prompt.
(** A row of [prompts]; [category] is the value of the enum member. *)
Record t : Type := Row {
  id : Z;
  business_id : Z;
  category : option string;
  trigger_phrases : option string;
  content : string;
  ai_instructions : option string;
  requires_info_collection : option bool;
  fields_to_collect : option string;
  priority : Z;
  is_active : bool
}.
End Prompt.

Inductive CallStatus : Type :=
| IN_PROGRESS | COMPLETED | TRANSFERRED | VOICEMAIL | MISSED | FAILED.

Module Call.
(** A row of [calls]. *)
Record t : Type := Row {
  id : Z;
  business_id : Z;
  twilio_call_sid : option string;
  caller_number : option string;
  called_number : option string;
  status : CallStatus;
  duration_seconds : Z;
  transcript : option string;
  call_summary : option string;
  sentiment : option string;
  collected_info : pyval;
  action_taken : option string;
  action_details : pyval
}.
End Call.

(** The committed content of the store; [calls] is keyed by the primary
    key. *)
Record database : Type := Database {
  businesses : list Business.t;
  prompts : list Prompt.t;
  calls : gmap Z Call.t
}.

(** The primary key the store gives the next row of [calls]. *)
Definition next_call_id (rows : gmap Z Call.t) : Z :=
  1 + map_fold (fun k _ acc => Z.max k acc) 0 rows.

(** The operation at site [op] raises when the environment says so. *)
Definition db_guard (e : env) (op : db_op) : result unit :=
  match db_fault e op with
  | Some ex => Raise ex
  | None => Ok tt
  end.

(** [result.scalar_one_or_none()] *)
Definition scalar_one_or_none {A : Type} (rows : list A) : result (option A) :=
  match rows with
  | [] => Ok None
  | [row] => Ok (Some row)
  | _ => Raise (Exn MultipleResultsFound "Multiple rows were found when one or none was required")
  end.

(** [select(Business).where(Business.twilio_phone_number == To)]; a
    comparison with [None] selects the rows whose column is null. *)
Definition select_business_by_number (d : database) (To : option string) : list Business.t :=
  filter (fun b => bool_decide (Business.twilio_phone_number b = To)) (businesses d).

Definition select_business_by_id (d : database) (business_id : Z) : list Business.t :=
  filter (fun b => bool_decide (Business.id b = business_id)) (businesses d).

Definition select_call (d : database) (call_id : Z) : list Call.t :=
  match calls d !! call_id with
  | Some row => [row]
  | None => []
  end.

(** Insertion by descending priority, in front of the rows of the same
    priority: [foldr] hands the rows over from the last to the first, so
    that equal rows come out in table order. *)
Fixpoint insert_by_priority (p : Prompt.t) (sorted : list Prompt.t) : list Prompt.t :=
  match sorted with
  | [] => [p]
  | q :: rest =>
      if Prompt.priority q <=? Prompt.priority p then p :: q :: rest
      else q :: insert_by_priority p rest
  end.

(** [select(Prompt).where(business_id == id, is_active == True)
    .order_by(Prompt.priority.desc())]; rows of equal priority are
    taken in table order. *)
Definition select_prompts (d : database) (business_id : Z) : list Prompt.t :=
  foldr insert_by_priority []
    (filter (fun p => bool_decide (Prompt.business_id p = business_id) && Prompt.is_active p)
            (prompts d)).

(** The store with [row] written under its primary key. *)
Definition store_call (d : database) (row : Call.t) : database :=
  {| businesses := businesses d;
     prompts := prompts d;
     calls := <[Call.id row := row]> (calls d) |}.

(* ===================================================================== *)
(** ** The webhooks ([api/webhooks.py]) *)
(* ===================================================================== *)

(** An entry of [active_conversations]. *)
Record conversation : Type := Conversation {
  ai_handler : AIConversationHandler;
  call_id : Z;
  business_id : Z;
  collected_info : pydict;
  transcript : list string
}.

(** The state webhooks share: the process-wide registry and the store. *)
Record world : Type := World {
  active_conversations : gmap string conversation;
  db : database
}.

Inductive http_response : Type :=
| Response (content : twiml) (media_type : string)
| JsonBody (body : pydict).

Definition polly_voice_map : list (string * string) :=
  [("alloy", "Polly.Joanna"); ("echo", "Polly.Matthew"); ("fable", "Polly.Amy");
   ("onyx", "Polly.Brian"); ("nova", "Polly.Salli"); ("shimmer", "Polly.Kimberly")].

(** [polly_voice_map.get(ai_voice, 'Polly.Joanna')] *)
Definition polly_voice (ai_voice : option string) : string :=
  match ai_voice with
  | Some v =>
      match find (fun kv => String.eqb (fst kv) v) polly_voice_map with
      | Some kv => snd kv
      | None => "Polly.Joanna"
      end
  | None => "Polly.Joanna"
  end.

Definition status_map : list (string * CallStatus) :=
  [("completed", COMPLETED); ("busy", MISSED); ("no-answer", MISSED);
   ("canceled", MISSED); ("failed", FAILED)].

(** [status_map.get(key, CallStatusEnum.COMPLETED)] *)
Definition status_map_get (key : string) : CallStatus :=
  match find (fun kv => String.eqb (fst kv) key) status_map with
  | Some kv => snd kv
  | None => COMPLETED
  end.

Definition set_transcript (c : conversation) (lines : list string) : conversation :=
  {| ai_handler := ai_handler c; call_id := call_id c; business_id := business_id c;
     collected_info := collected_info c; transcript := lines |}.

Definition set_collected_info (c : conversation) (info : pydict) : conversation :=
  {| ai_handler := ai_handler c; call_id := call_id c; business_id := business_id c;
     collected_info := info; transcript := transcript c |}.

Definition set_ai_handler (c : conversation) (h : AIConversationHandler) : conversation :=
  {| ai_handler := h; call_id := call_id c; business_id := business_id c;
     collected_info := collected_info c; transcript := transcript c |}.

(** [active_conversations[CallSid] = c], also how a mutation of the
    entry in place shows in the registry. *)
Definition set_conversation (w : world) (CallSid : string) (c : conversation) : world :=
  {| active_conversations := <[CallSid := c]> (active_conversations w); db := db w |}.

(** [del active_conversations[CallSid]] *)
Definition del_conversation (w : world) (CallSid : string) : world :=
  {| active_conversations := delete CallSid (active_conversations w); db := db w |}.

(** The store after a successful [commit] of [row]. *)
Definition commit_call (w : world) (row : Call.t) : world :=
  {| active_conversations := active_conversations w; db := store_call (db w) row |}.

Definition xml (content : twiml) : http_response := Response content "application/xml".

(** [{"status": "ok"}], the acknowledgement of a status event. *)
Definition acknowledgement : http_response := JsonBody (dict_of [("status", PyStr "ok")]).

Section Webhooks.
Context `{PyRuntime}.

(** [settings.OPENAI_API_KEY] *)
Variable OPENAI_API_KEY : option string.

Definition business_context_of (business : Business.t) : pydict :=
  dict_of
    [("name", PyStr (Business.name business));
     ("business_type", of_option (Business.business_type business));
     ("phone_number", of_option (Business.phone_number business));
     ("address_line1", of_option (Business.address_line1 business));
     ("city", of_option (Business.city business));
     ("state", of_option (Business.state business));
     ("zip_code", of_option (Business.zip_code business));
     ("business_hours", Business.business_hours business);
     ("services", Business.services business);
     ("ai_personality", of_option (Business.ai_personality business))].

Definition prompt_data_of (p : Prompt.t) : pydict :=
  dict_of
    [("category", of_option (Prompt.category p));
     ("trigger_phrases", of_option (Prompt.trigger_phrases p));
     ("content", PyStr (Prompt.content p));
     ("ai_instructions", of_option (Prompt.ai_instructions p));
     ("requires_info_collection",
        match Prompt.requires_info_collection p with
        | Some b => PyBool b
        | None => PyNone
        end);
     ("fields_to_collect", of_option (Prompt.fields_to_collect p))].

(** [Call(business_id=..., twilio_call_sid=..., caller_number=...,
    called_number=..., status=IN_PROGRESS)] with the column defaults,
    under the key the store assigns. *)
Definition new_call (d : database) (business : Business.t) (CallSid : string)
    (From To : option string) : Call.t :=
  {| Call.id := next_call_id (calls d);
     Call.business_id := Business.id business;
     Call.twilio_call_sid := Some CallSid;
     Call.caller_number := From;
     Call.called_number := To;
     Call.status := IN_PROGRESS;
     Call.duration_seconds := 0;
     Call.transcript := None;
     Call.call_summary := None;
     Call.sentiment := None;
     Call.collected_info := PyDict [];
     Call.action_taken := None;
     Call.action_details := PyDict [] |}.

(** [POST /twilio/voice] *)
Definition handle_incoming_call (e : env) (CallSid : string) (From To : option string)
    (w : world) : result http_response * world :=
  match (let* _ := db_guard e SelectBusinessByNumber in
         scalar_one_or_none (select_business_by_number (db w) To)) with
  | Raise ex => (Raise ex, w)
  | Ok None =>
      (Ok (xml (create_response
                  (PyStr "We're sorry, but this number is not configured. Please try again later.")
                  default_voice true true)),
       w)
  | Ok (Some business) =>
      let call := new_call (db w) business CallSid From To in
      match db_guard e CommitNewCall with
      | Raise ex => (Raise ex, w)
      | Ok _ =>
          let w := commit_call w call in
          match (let* _ := db_guard e RefreshCall in
                 let ai_handler := new_handler OPENAI_API_KEY (business_context_of business) in
                 let* _ := db_guard e SelectPrompts in
                 let prompt_data :=
                   map prompt_data_of (select_prompts (db w) (Business.id business)) in
                 add_prompts_to_context ai_handler prompt_data) with
          | Raise ex => (Raise ex, w)
          | Ok ai_handler =>
              let w :=
                set_conversation w CallSid
                  {| ai_handler := ai_handler;
                     call_id := Call.id call;
                     business_id := Business.id business;
                     collected_info := [];
                     transcript := [] |} in
              (Ok (xml (create_greeting_response
                          (of_option (Business.greeting_message business))
                          (polly_voice (Business.ai_voice business)))),
               w)
          end
      end
  end.

(** The branch of [handle_speech_input] for the action
    [schedule_appointment]; [w] already holds [c]. *)
Definition schedule_appointment (e : env) (CallSid : string) (c : conversation)
    (response : pydict) (w : world) : result http_response * world :=
  let '(info, raised) :=
    if truthy (get response "action_data")
    then dict_update (collected_info c) (get response "action_data")
    else (collected_info c, None) in
  let c := set_collected_info c info in
  let w := set_conversation w CallSid c in
  match raised with
  | Some ex => (Raise ex, w)
  | None =>
      match (let* _ := db_guard e SelectCall in
             scalar_one_or_none (select_call (db w) (call_id c))) with
      | Raise ex => (Raise ex, w)
      | Ok found =>
          let hang_up :=
            Ok (xml (create_response (get response "response") default_voice true true)) in
          match found with
          | None => (hang_up, w)
          | Some call =>
              let call :=
                {| Call.id := Call.id call;
                   Call.business_id := Call.business_id call;
                   Call.twilio_call_sid := Call.twilio_call_sid call;
                   Call.caller_number := Call.caller_number call;
                   Call.called_number := Call.called_number call;
                   Call.status := Call.status call;
                   Call.duration_seconds := Call.duration_seconds call;
                   Call.transcript := Call.transcript call;
                   Call.call_summary := Call.call_summary call;
                   Call.sentiment := Call.sentiment call;
                   Call.collected_info := PyDict (collected_info c);
                   Call.action_taken := Some "appointment_scheduled";
                   Call.action_details := get_default response "action_data" (PyDict []) |} in
              match db_guard e CommitCall with
              | Raise ex => (Raise ex, w)
              | Ok _ => (hang_up, commit_call w call)
              end
          end
      end
  end.

(** [POST /twilio/handle-input] *)
Definition handle_speech_input (e : env) (CallSid : string) (SpeechResult : option string)
    (w : world) : result http_response * world :=
  let didnt_catch :=
    (Ok (xml (create_response
                (PyStr "I'm sorry, I didn't catch that. Could you please repeat?")
                default_voice true false)),
     w) in
  match active_conversations w !! CallSid, SpeechResult with
  | None, _ | _, None => didnt_catch
  | Some c, Some speech =>
      if String.eqb speech "" then didnt_catch
      else
        let c := set_transcript c (transcript c ++ ["Caller: " +:+ speech])%list in
        let '(outcome, handler) := process_input e (ai_handler c) speech (collected_info c) in
        let c := set_ai_handler c handler in
        match outcome with
        | Raise ex => (Raise ex, set_conversation w CallSid c)
        | Ok response =>
            let c :=
              set_transcript c
                (transcript c ++ ["AI: " +:+ py_str (get response "response")])%list in
            let w := set_conversation w CallSid c in
            let continue :=
              (Ok (xml (create_response (get response "response") default_voice true false)), w) in
            if is_str (get response "action") "schedule_appointment" then
              schedule_appointment e CallSid c response w
            else if is_str (get response "action") "transfer_call" then
              match (let* _ := db_guard e SelectBusinessById in
                     scalar_one_or_none (select_business_by_id (db w) (business_id c))) with
              | Raise ex => (Raise ex, w)
              | Ok (Some business) =>
                  match Business.phone_number business with
                  | Some number =>
                      if String.eqb number "" then continue
                      else (Ok (xml (transfer_call number (get response "response") default_voice)), w)
                  | None => continue
                  end
              | Ok None => continue
              end
            else if is_str (get response "action") "end_call" then
              (Ok (xml (create_response (get response "response") default_voice true true)), w)
            else continue
        end
  end.

(** [POST /twilio/status] *)
Definition handle_call_status (e : env) (CallSid : string) (TwilioCallStatus : string)
    (CallDuration : option Z) (w : world) : result http_response * world :=
  let ok := Ok acknowledgement in
  match active_conversations w !! CallSid with
  | None => (ok, w)
  | Some c =>
      match (let* _ := db_guard e SelectCall in
             scalar_one_or_none (select_call (db w) (call_id c))) with
      | Raise ex => (Raise ex, w)
      | Ok None => (ok, del_conversation w CallSid)
      | Ok (Some call) =>
          let transcript_text := String.concat nl (transcript c) in
          let call_summary := summarize_call e (ai_handler c) in
          let caller_messages :=
            map (str_remove "Caller: ") (filter (String.prefix "Caller:") (transcript c)) in
          let sentiment :=
            if String.eqb transcript_text "" then Call.sentiment call
            else
              match caller_messages with
              | [] => Call.sentiment call
              | _ => Some (analyze_sentiment e (ai_handler c) (String.concat " " caller_messages))
              end in
          let call :=
            {| Call.id := Call.id call;
               Call.business_id := Call.business_id call;
               Call.twilio_call_sid := Call.twilio_call_sid call;
               Call.caller_number := Call.caller_number call;
               Call.called_number := Call.called_number call;
               Call.status := status_map_get (str_lower TwilioCallStatus);
               Call.duration_seconds := match CallDuration with Some n => n | None => 0 end;
               Call.transcript := Some transcript_text;
               Call.call_summary := Some call_summary;
               Call.sentiment := sentiment;
               Call.collected_info := Call.collected_info call;
               Call.action_taken := Call.action_taken call;
               Call.action_details := Call.action_details call |} in
          match db_guard e CommitCall with
          | Raise ex => (Raise ex, w)
          | Ok _ => (ok, del_conversation (commit_call w call) CallSid)
          end
      end
  end.

End Webhooks.

(* ===================================================================== *)
(** ** A reference runtime *)
(* ===================================================================== *)

(** An instance of [PyRuntime] to run the handlers on concrete inputs.
    Its decoder follows the JSON grammar that [json.loads] accepts
    (strict mode, with the constants NaN, Infinity and -Infinity), so
    whether a text decodes is decided as the interpreter decides it.
    Numbers stay lexemes: [repr], the zero test and equality of numbers
    are exact on integers in canonical form only, and [lower], [strip]
    and the split into characters on ASCII and well-formed UTF-8. The
    general properties hold for every runtime and do not rely on this
    one. *)
Module Reference.

Definition dquote : ascii := ascii_of_nat 34.
Definition backslash : ascii := ascii_of_nat 92.

Definition is_ws (c : ascii) : bool :=
  let n := nat_of_ascii c in
  ((n =? 32) || (n =? 9) || (n =? 10) || (n =? 13))%nat.

Fixpoint skip_ws (s : string) : string :=
  match s with
  | String c rest => if is_ws c then skip_ws rest else s
  | EmptyString => s
  end.

Definition is_digit (c : ascii) : bool :=
  let n := nat_of_ascii c in ((48 <=? n) && (n <=? 57))%nat.

Definition hex_digit (c : ascii) : option N :=
  let n := N_of_ascii c in
  if ((48 <=? n) && (n <=? 57))%N then Some (n - 48)%N
  else if ((97 <=? n) && (n <=? 102))%N then Some (n - 87)%N
  else if ((65 <=? n) && (n <=? 70))%N then Some (n - 55)%N
  else None.

Definition hex4 (a b c d : ascii) : option N :=
  match hex_digit a, hex_digit b, hex_digit c, hex_digit d with
  | Some x, Some y, Some z, Some w => Some (((x * 16 + y) * 16 + z) * 16 + w)%N
  | _, _, _, _ => None
  end.

(** The character an escape letter stands for. *)
Definition simple_escape (k : ascii) : option ascii :=
  if Ascii.eqb k dquote then Some dquote
  else if Ascii.eqb k backslash then Some backslash
  else if Ascii.eqb k "/" then Some "/"%char
  else if Ascii.eqb k "b" then Some (ascii_of_nat 8)
  else if Ascii.eqb k "f" then Some (ascii_of_nat 12)
  else if Ascii.eqb k "n" then Some (ascii_of_nat 10)
  else if Ascii.eqb k "r" then Some (ascii_of_nat 13)
  else if Ascii.eqb k "t" then Some (ascii_of_nat 9)
  else None.

(** A decoded piece of a string literal: a byte of the text, or the
    16-bit unit of a [\uXXXX] escape. *)
Inductive str_item : Type :=
| Byte (c : ascii)
| Unit16 (n : N).

Definition cons_item (i : str_item) (r : option (list str_item * string))
    : option (list str_item * string) :=
  match r with
  | Some (items, rest) => Some (i :: items, rest)
  | None => None
  end.

(** The body of a string literal, after its opening quote. *)
Fixpoint scan_string (s : string) : option (list str_item * string) :=
  match s with
  | EmptyString => None
  | String c rest =>
      if Ascii.eqb c dquote then Some ([], rest)
      else if Ascii.eqb c backslash then
        match rest with
        | EmptyString => None
        | String k rest1 =>
            if Ascii.eqb k "u" then
              match rest1 with
              | String a (String b (String c2 (String d rest2))) =>
                  match hex4 a b c2 d with
                  | Some n => cons_item (Unit16 n) (scan_string rest2)
                  | None => None
                  end
              | _ => None
              end
            else
              match simple_escape k with
              | Some ch => cons_item (Byte ch) (scan_string rest1)
              | None => None
              end
        end
      else if (nat_of_ascii c <? 32)%nat then None
      else cons_item (Byte c) (scan_string rest)
  end.

Definition byte_of (n : N) : ascii := ascii_of_N n.

(** UTF-8 of a code point. *)
Definition utf8 (n : N) : string :=
  if (n <? 128)%N then String (byte_of n) ""
  else if (n <? 2048)%N then
    String (byte_of (192 + n / 64)) (String (byte_of (128 + n mod 64)) "")
  else if (n <? 65536)%N then
    String (byte_of (224 + n / 4096))
      (String (byte_of (128 + (n / 64) mod 64)) (String (byte_of (128 + n mod 64)) ""))
  else
    String (byte_of (240 + n / 262144))
      (String (byte_of (128 + (n / 4096) mod 64))
         (String (byte_of (128 + (n / 64) mod 64)) (String (byte_of (128 + n mod 64)) ""))).

Definition is_high (n : N) : bool := ((55296 <=? n) && (n <=? 56319))%N.
Definition is_low (n : N) : bool := ((56320 <=? n) && (n <=? 57343))%N.

(** The text of a literal: a high surrogate followed by a low one is
    one code point. *)
Fixpoint decode_items (items : list str_item) : string :=
  match items with
  | [] => ""
  | Byte c :: rest => String c (decode_items rest)
  | Unit16 hi :: rest =>
      match rest with
      | Unit16 lo :: rest' =>
          if is_high hi && is_low lo
          then utf8 (65536 + (hi - 55296) * 1024 + (lo - 56320))%N +:+ decode_items rest'
          else utf8 hi +:+ decode_items rest
      | _ => utf8 hi +:+ decode_items rest
      end
  end.

(** The leading digits of [s], and what follows them. *)
Fixpoint take_digits (s : string) : string * string :=
  match s with
  | String c rest =>
      if is_digit c then let '(ds, r) := take_digits rest in (String c ds, r) else ("", s)
  | EmptyString => ("", s)
  end.

(** A number at the head of [s]: its lexeme and the rest. *)
Definition scan_number (s : string) : option (string * string) :=
  let '(sign, s1) :=
    match s with
    | String c rest => if Ascii.eqb c "-" then ("-", rest) else ("", s)
    | EmptyString => ("", s)
    end in
  let '(int_part, s2) := take_digits s1 in
  let '(int_part, s2) :=
    match int_part with
    | String c _ => if Ascii.eqb c "0" then ("0", str_drop 1 s1) else (int_part, s2)
    | EmptyString => (int_part, s2)
    end in
  if String.eqb int_part "" then None
  else
    let '(frac, s3) :=
      match s2 with
      | String c rest =>
          if Ascii.eqb c "." then
            let '(ds, r) := take_digits rest in
            if String.eqb ds "" then ("", s2) else ("." +:+ ds, r)
          else ("", s2)
      | EmptyString => ("", s2)
      end in
    let '(expo, s4) :=
      match s3 with
      | String c rest =>
          if Ascii.eqb c "e" || Ascii.eqb c "E" then
            let '(esign, rest1) :=
              match rest with
              | String c1 r1 =>
                  if Ascii.eqb c1 "-" || Ascii.eqb c1 "+" then (String c1 "", r1) else ("", rest)
              | EmptyString => ("", rest)
              end in
            let '(ds, r) := take_digits rest1 in
            if String.eqb ds "" then ("", s3) else (String c "" +:+ esign +:+ ds, r)
          else ("", s3)
      | EmptyString => ("", s3)
      end in
    Some (sign +:+ int_part +:+ frac +:+ expo, s4).

(** [word] at the head of [s]. *)
Definition keyword (word : string) (v : pyval) (s : string) : option (pyval * string) :=
  if String.prefix word s then Some (v, str_drop (String.length word) s) else None.

(** A value that is neither a string, an object nor an array. *)
Definition scan_atom (s : string) : option (pyval * string) :=
  match keyword "null" PyNone s with
  | Some r => Some r
  | None =>
  match keyword "true" (PyBool true) s with
  | Some r => Some r
  | None =>
  match keyword "false" (PyBool false) s with
  | Some r => Some r
  | None =>
  match scan_number s with
  | Some (lexeme, rest) => Some (PyNum lexeme, rest)
  | None =>
  match keyword "NaN" (PyNum "NaN") s with
  | Some r => Some r
  | None =>
  match keyword "Infinity" (PyNum "Infinity") s with
  | Some r => Some r
  | None => keyword "-Infinity" (PyNum "-Infinity") s
  end end end end end end.

(** A member stored under a str key: a repeated key keeps its place and
    takes the last value. *)
Fixpoint set_member (d : pydict) (key : string) (v : pyval) : pydict :=
  match d with
  | [] => [(PyStr key, v)]
  | (PyStr k, v') :: rest =>
      if String.eqb k key then (PyStr k, v) :: rest else (PyStr k, v') :: set_member rest key v
  | kv :: rest => kv :: set_member rest key v
  end.

Inductive scan_mode : Type :=
| Value
| Elements (acc : list pyval)
| Members (acc : pydict).

(** The scanner: a value at the head of [s]; the elements of an array
    after its bracket; the members of an object after its brace. Of
    two consecutive steps one consumes a character. *)
Fixpoint scan (fuel : nat) (mode : scan_mode) (s : string) : option (pyval * string) :=
  match fuel with
  | O => None
  | S fuel =>
      match mode with
      | Value =>
          match s with
          | EmptyString => None
          | String c rest =>
              if Ascii.eqb c dquote then
                match scan_string rest with
                | Some (items, rest') => Some (PyStr (decode_items items), rest')
                | None => None
                end
              else if Ascii.eqb c "{" then
                match skip_ws rest with
                | String c1 rest1 =>
                    if Ascii.eqb c1 "}" then Some (PyDict [], rest1)
                    else scan fuel (Members []) (String c1 rest1)
                | EmptyString => None
                end
              else if Ascii.eqb c "[" then
                match skip_ws rest with
                | String c1 rest1 =>
                    if Ascii.eqb c1 "]" then Some (PyList [], rest1)
                    else scan fuel (Elements []) (String c1 rest1)
                | EmptyString => None
                end
              else scan_atom s
          end
      | Elements acc =>
          match scan fuel Value s with
          | Some (v, rest) =>
              match skip_ws rest with
              | String c rest1 =>
                  if Ascii.eqb c "," then scan fuel (Elements (acc ++ [v])) (skip_ws rest1)
                  else if Ascii.eqb c "]" then Some (PyList (acc ++ [v]), rest1)
                  else None
              | EmptyString => None
              end
          | None => None
          end
      | Members acc =>
          match s with
          | String c rest =>
              if Ascii.eqb c dquote then
                match scan_string rest with
                | Some (items, rest1) =>
                    match skip_ws rest1 with
                    | String c2 rest2 =>
                        if Ascii.eqb c2 ":" then
                          match scan fuel Value (skip_ws rest2) with
                          | Some (v, rest3) =>
                              let acc := set_member acc (decode_items items) v in
                              match skip_ws rest3 with
                              | String c4 rest4 =>
                                  if Ascii.eqb c4 "}" then Some (PyDict acc, rest4)
                                  else if Ascii.eqb c4 "," then
                                    scan fuel (Members acc) (skip_ws rest4)
                                  else None
                              | EmptyString => None
                              end
                          | None => None
                          end
                        else None
                    | EmptyString => None
                    end
                | None => None
                end
              else None
          | EmptyString => None
          end
      end
  end.

Definition loads (text : string) : result pyval :=
  match scan (2 * String.length text + 2) Value (skip_ws text) with
  | Some (v, rest) =>
      if String.eqb (skip_ws rest) "" then Ok v
      else Raise (Exn JSONDecodeError "Extra data")
  | None => Raise (Exn JSONDecodeError "Expecting value")
  end.

(** [repr(v)]: a number by its lexeme, a str between single quotes. *)
Fixpoint repr (v : pyval) : string :=
  match v with
  | PyNone => "None"
  | PyBool true => "True"
  | PyBool false => "False"
  | PyNum lexeme => lexeme
  | PyStr s => "'" +:+ s +:+ "'"
  | PyList items => "[" +:+ String.concat ", " (map repr items) +:+ "]"
  | PyDict entries =>
      "{" +:+ String.concat ", " (map (fun '(k, x) => repr k +:+ ": " +:+ repr x) entries) +:+ "}"
  end.

(** Whether the digits before the exponent are all zero. *)
Fixpoint zero_mantissa (lexeme : string) : bool :=
  match lexeme with
  | EmptyString => true
  | String c rest =>
      if Ascii.eqb c "e" || Ascii.eqb c "E" then true
      else (Ascii.eqb c "0" || Ascii.eqb c "." || Ascii.eqb c "-") && zero_mantissa rest
  end.

Definition lexeme_of (v : pyval) : string :=
  match v with
  | PyBool true => "1"
  | PyBool false => "0"
  | PyNum lexeme => lexeme
  | _ => ""
  end.

Definition same_lexeme (a b : pyval) : bool := String.eqb (lexeme_of a) (lexeme_of b).

Definition is_continuation (c : ascii) : bool :=
  let n := nat_of_ascii c in ((128 <=? n) && (n <? 192))%nat.

(** The bytes pending for the character being read, and the characters
    read behind it. *)
Fixpoint split_utf8 (s : string) : string * list string :=
  match s with
  | EmptyString => ("", [])
  | String c rest =>
      let '(pending, chars) := split_utf8 rest in
      if is_continuation c then (String c pending, chars)
      else ("", String c pending :: chars)
  end.

Definition chars (s : string) : list string := snd (split_utf8 s).

Definition lower (s : string) : string := map_string lower_ascii s.

Definition is_space (c : ascii) : bool :=
  let n := nat_of_ascii c in
  (((9 <=? n) && (n <=? 13)) || ((28 <=? n) && (n <=? 32)))%nat.

Fixpoint lstrip (s : string) : string :=
  match s with
  | String c rest => if is_space c then lstrip rest else s
  | EmptyString => s
  end.

Fixpoint rstrip (s : string) : string :=
  match s with
  | EmptyString => EmptyString
  | String c rest =>
      let r := rstrip rest in
      if is_space c && String.eqb r "" then EmptyString else String c r
  end.

Definition strip (s : string) : string := rstrip (lstrip s).

Definition runtime : PyRuntime :=
  {| json_loads := loads;
     py_repr := repr;
     num_is_zero := zero_mantissa;
     scalar_eq := same_lexeme;
     str_chars := chars;
     str_lower := lower;
     str_strip := strip |}.

(** [text] between double quotes. *)
Definition quoted (text : string) : string := String dquote (text +:+ String dquote "").

End Reference.

(* ===================================================================== *)
(** ** A call in progress *)
(* ===================================================================== *)

(** One business, its prompts, one call under way, and the answers the
    outside world may give; the concrete inputs of the properties. *)
Module Scenario.

Definition clinic : Business.t :=
  {| Business.id := 1;
     Business.name := "Bright Smiles Dental";
     Business.business_type := Some "dental";
     Business.phone_number := Some "+15550111";
     Business.address_line1 := Some "1 Main Street";
     Business.city := Some "Springfield";
     Business.state := Some "IL";
     Business.zip_code := Some "62701";
     Business.business_hours := PyDict [];
     Business.services := PyList [PyStr "Cleaning"; PyStr "Fillings"];
     Business.ai_voice := Some "alloy";
     Business.ai_personality := None;
     Business.greeting_message := Some "Hello!";
     Business.twilio_phone_number := Some "+15550100" |}.

(** A prompt whose list columns hold JSON arrays. *)
Definition scheduling : Prompt.t :=
  {| Prompt.id := 1;
     Prompt.business_id := 1;
     Prompt.category := Some "scheduling";
     Prompt.trigger_phrases :=
       Some ("[" +:+ Reference.quoted "schedule" +:+ ", " +:+ Reference.quoted "book" +:+ "]");
     Prompt.content := "I can help you schedule an appointment.";
     Prompt.ai_instructions := Some "Collect the details.";
     Prompt.requires_info_collection := Some true;
     Prompt.fields_to_collect := Some ("[" +:+ Reference.quoted "patient_name" +:+ "]");
     Prompt.priority := 10;
     Prompt.is_active := true |}.

(** A prompt whose list columns hold plain text. *)
Definition billing : Prompt.t :=
  {| Prompt.id := 2;
     Prompt.business_id := 1;
     Prompt.category := Some "faq";
     Prompt.trigger_phrases := Some "billing, invoice";
     Prompt.content := "Our billing desk can help.";
     Prompt.ai_instructions := None;
     Prompt.requires_info_collection := Some true;
     Prompt.fields_to_collect := Some "name and phone";
     Prompt.priority := 5;
     Prompt.is_active := true |}.

Definition record : Call.t :=
  {| Call.id := 1;
     Call.business_id := 1;
     Call.twilio_call_sid := Some "CA1";
     Call.caller_number := Some "+15550199";
     Call.called_number := Some "+15550100";
     Call.status := IN_PROGRESS;
     Call.duration_seconds := 0;
     Call.transcript := None;
     Call.call_summary := None;
     Call.sentiment := None;
     Call.collected_info := PyDict [];
     Call.action_taken := None;
     Call.action_details := PyDict [] |}.

Definition store : database :=
  {| businesses := [clinic];
     prompts := [scheduling];
     calls := {[ 1 := record ]} |}.

(** The handler of the call, one exchange in. *)
Definition receptionist : AIConversationHandler :=
  {| business_context := business_context_of clinic;
     client := Some "sk-test";
     conversation_history :=
       [chat_entry "user" (PyStr "hi"); chat_entry "assistant" (PyStr "hello")] |}.

(** A handler built without an API key. *)
Definition unconfigured : AIConversationHandler :=
  new_handler None (business_context_of clinic).

Definition live : conversation :=
  {| ai_handler := receptionist;
     call_id := 1;
     business_id := 1;
     collected_info := [];
     transcript := ["Caller: hi"; "AI: hello"] |}.

Definition w0 : world :=
  {| active_conversations := {[ "CA1" := live ]};
     db := store |}.

Definition no_fault : db_op -> option exn := fun _ => None.

(** The model answers in plain text. *)
Definition quiet : env :=
  {| chat_create := fun _ => Ok [ChatMessage (Some "Sure.") None];
     db_fault := no_fault |}.

(** The model cannot be reached. *)
Definition model_down : env :=
  {| chat_create := fun _ => Raise (Exn APIError "Connection error.");
     db_fault := no_fault |}.

(** The store refuses the commit of the call record. *)
Definition commit_fails : env :=
  {| chat_create := fun _ => Ok [ChatMessage (Some "Sure.") None];
     db_fault := fun op =>
       match op with
       | CommitCall => Some (Exn DatabaseError "database is locked")
       | _ => None
       end |}.

Definition jane : string :=
  "{" +:+ Reference.quoted "patient_name" +:+ ": " +:+ Reference.quoted "Jane" +:+ ", "
  +:+ Reference.quoted "preferred_date" +:+ ": " +:+ Reference.quoted "2024-06-01" +:+ ", "
  +:+ Reference.quoted "preferred_time" +:+ ": " +:+ Reference.quoted "10:00" +:+ "}".

Definition jane_fields : pydict :=
  dict_of [("patient_name", PyStr "Jane");
           ("preferred_date", PyStr "2024-06-01");
           ("preferred_time", PyStr "10:00")].

(** The model calls [schedule_appointment]. *)
Definition model_schedules : env :=
  {| chat_create := fun _ =>
       Ok [ChatMessage None (Some (FunctionCall "schedule_appointment" jane))];
     db_fault := no_fault |}.

End Scenario.

(* ===================================================================== *)
(** ** The provider client of the telephony service *)
(* ===================================================================== *)

Module Twilio.

(** The attributes of a fetched call that [get_call_details] reads. *)
Record call_resource : Type := CallResource {
  sid : pyval;
  from_ : pyval;
  to : pyval;
  status : pyval;
  duration : pyval;
  direction : pyval;
  start_time : pyval;
  end_time : pyval
}.

(** What the provider answers: the call fetched by its identifier; the
    phone numbers of a search, under an area code or under none; the
    phone number of the resource created for a requested number. *)
Record api : Type := Api {
  fetch : string -> result call_resource;
  available_numbers : option string -> result (list string);
  create_number : string -> result string
}.

End Twilio.

(** A [TelephonyService]: [twilio_client] holds the credentials the
    client was built with, [None] when one of them is not configured. *)
Record TelephonyService : Type := Telephony {
  twilio_client : option (string * string)
}.

(** [TelephonyService()] under the configured account and token. *)
Definition new_telephony (TWILIO_ACCOUNT_SID TWILIO_AUTH_TOKEN : option string)
    : TelephonyService :=
  {| twilio_client :=
       match TWILIO_ACCOUNT_SID, TWILIO_AUTH_TOKEN with
       | Some account, Some token =>
           if String.eqb account "" || String.eqb token "" then None
           else Some (account, token)
       | _, _ => None
       end |}.

Definition telephony_is_configured (self : TelephonyService) : bool :=
  match twilio_client self with Some _ => true | None => false end.

(** [await self.get_call_details(call_sid)] *)
Definition get_call_details (t : Twilio.api) (self : TelephonyService) (call_sid : string)
    : pydict :=
  match twilio_client self with
  | None => []
  | Some _ =>
      try_except
        (let* call := Twilio.fetch t call_sid in
         Ok (dict_of
               [("sid", Twilio.sid call);
                ("from", Twilio.from_ call);
                ("to", Twilio.to call);
                ("status", Twilio.status call);
                ("duration", Twilio.duration call);
                ("direction", Twilio.direction call);
                ("start_time", Twilio.start_time call);
                ("end_time", Twilio.end_time call)]))
        (fun ex => dict_of [("error", PyStr (exn_str ex))])
  end.

(** [await self.purchase_phone_number(area_code)]: the number bought,
    and the lines printed. *)
Definition purchase_phone_number (t : Twilio.api) (self : TelephonyService)
    (area_code : option string) : option string * list string :=
  match twilio_client self with
  | None => (None, [])
  | Some _ =>
      try_except
        (let* available :=
           Twilio.available_numbers t
             (match area_code with
              | Some code => if String.eqb code "" then None else Some code
              | None => None
              end) in
         match available with
         | [] => Ok (None, [])
         | first :: _ =>
             let* number := Twilio.create_number t first in
             Ok (Some number, [])
         end)
        (fun ex => (None, ["Error purchasing phone number: " +:+ exn_str ex]))
  end.

(* ===================================================================== *)
(** ** Notions the further properties are stated with *)
(* ===================================================================== *)

(** An answer of the model that carries no text: the request raised,
    no choice came back, or the first choice has no content. *)
Definition no_text (answer : result (list chat_message)) : Prop :=
  match answer with
  | Raise _ => True
  | Ok [] => True
  | Ok (message :: _) => content message = None
  end.

(** Whether [old] occurs somewhere in [s]. *)
Fixpoint occurs (old s : string) : bool :=
  String.prefix old s
  || match s with
     | String _ rest => occurs old rest
     | EmptyString => false
     end.

(** The transcript lines of completed exchanges, each an utterance of
    the caller and the reply to it, as [handle_speech_input] appends
    them. *)
Definition exchange_lines (exchanges : list (string * string)) : list string :=
  flat_map (fun ex => ["Caller: " +:+ fst ex; "AI: " +:+ snd ex]) exchanges.

(** The keys of a dict, in order. *)
Definition keys (d : pydict) : list pyval := map fst d.

(** [c'] continues [c]: the same call and business, and a transcript,
    a history and collected keys that start with those of [c]. *)
Definition continues (c c' : conversation) : Prop :=
  call_id c' = call_id c
  /\ business_id c' = business_id c
  /\ transcript c `prefix_of` transcript c'
  /\ conversation_history (ai_handler c) `prefix_of` conversation_history (ai_handler c')
  /\ keys (collected_info c) `prefix_of` keys (collected_info c').

(** The verbs of a document that hang up, and those that gather. *)
Definition hangs_up (v : verb) : bool :=
  match v with Hangup => true | _ => false end.

Definition gathers (v : verb) : bool :=
  match v with Gather _ _ _ _ _ _ => true | _ => false end.

Definition dials (v : verb) : bool :=
  match v with Dial _ => true | _ => false end.

(* ===================================================================== *)
(** ** Further situations *)
(* ===================================================================== *)

Module Situations.
Import Scenario.

(** The clinic without a phone number to transfer to. *)
Definition clinic_without_phone : Business.t :=
  {| Business.id := 1;
     Business.name := "Bright Smiles Dental";
     Business.business_type := Some "dental";
     Business.phone_number := None;
     Business.address_line1 := Some "1 Main Street";
     Business.city := Some "Springfield";
     Business.state := Some "IL";
     Business.zip_code := Some "62701";
     Business.business_hours := PyDict [];
     Business.services := PyList [PyStr "Cleaning"; PyStr "Fillings"];
     Business.ai_voice := Some "alloy";
     Business.ai_personality := None;
     Business.greeting_message := Some "Hello!";
     Business.twilio_phone_number := Some "+15550100" |}.

(** The clinic, its services column set to null. *)
Definition clinic_null_services : Business.t :=
  {| Business.id := 1;
     Business.name := "Bright Smiles Dental";
     Business.business_type := Some "dental";
     Business.phone_number := Some "+15550111";
     Business.address_line1 := Some "1 Main Street";
     Business.city := Some "Springfield";
     Business.state := Some "IL";
     Business.zip_code := Some "62701";
     Business.business_hours := PyDict [];
     Business.services := PyNone;
     Business.ai_voice := Some "alloy";
     Business.ai_personality := None;
     Business.greeting_message := Some "Hello!";
     Business.twilio_phone_number := Some "+15550100" |}.

(** A second business on the same provider number. *)
Definition twin : Business.t :=
  {| Business.id := 2;
     Business.name := "Bright Smiles Orthodontics";
     Business.business_type := Some "dental";
     Business.phone_number := Some "+15550122";
     Business.address_line1 := None;
     Business.city := None;
     Business.state := None;
     Business.zip_code := None;
     Business.business_hours := PyDict [];
     Business.services := PyList [];
     Business.ai_voice := None;
     Business.ai_personality := None;
     Business.greeting_message := None;
     Business.twilio_phone_number := Some "+15550100" |}.

(** A prompt saved with no trigger phrase: the column is null. *)
Definition untriggered : Prompt.t :=
  {| Prompt.id := 3;
     Prompt.business_id := 1;
     Prompt.category := Some "closing";
     Prompt.trigger_phrases := None;
     Prompt.content := "Thank you for calling.";
     Prompt.ai_instructions := None;
     Prompt.requires_info_collection := Some false;
     Prompt.fields_to_collect := None;
     Prompt.priority := 20;
     Prompt.is_active := true |}.

(** A prompt that collects nothing. *)
Definition opening_hours : Prompt.t :=
  {| Prompt.id := 4;
     Prompt.business_id := 1;
     Prompt.category := Some "hours";
     Prompt.trigger_phrases :=
       Some ("[" +:+ Reference.quoted "hours" +:+ ", " +:+ Reference.quoted "open" +:+ "]");
     Prompt.content := "We are open Monday to Friday.";
     Prompt.ai_instructions := None;
     Prompt.requires_info_collection := Some false;
     Prompt.fields_to_collect := None;
     Prompt.priority := 8;
     Prompt.is_active := true |}.

(** A prompt whose trigger phrases are a JSON array and whose fields to
    collect are plain text. *)
Definition intake : Prompt.t :=
  {| Prompt.id := 5;
     Prompt.business_id := 1;
     Prompt.category := Some "intake";
     Prompt.trigger_phrases :=
       Some ("[" +:+ Reference.quoted "new patient" +:+ ", " +:+ Reference.quoted "register"
             +:+ "]");
     Prompt.content := "Welcome to the practice.";
     Prompt.ai_instructions := None;
     Prompt.requires_info_collection := Some true;
     Prompt.fields_to_collect := Some "name and phone";
     Prompt.priority := 7;
     Prompt.is_active := true |}.

(** A prompt whose trigger phrases are plain text and whose fields to
    collect are a JSON array. *)
Definition callback : Prompt.t :=
  {| Prompt.id := 6;
     Prompt.business_id := 1;
     Prompt.category := Some "callback";
     Prompt.trigger_phrases := Some "call me back";
     Prompt.content := "We will call you back.";
     Prompt.ai_instructions := None;
     Prompt.requires_info_collection := Some true;
     Prompt.fields_to_collect := Some ("[" +:+ Reference.quoted "phone_number" +:+ "]");
     Prompt.priority := 6;
     Prompt.is_active := true |}.

(** A prompt with no trigger phrase, its fields to collect plain text. *)
Definition unlisted : Prompt.t :=
  {| Prompt.id := 7;
     Prompt.business_id := 1;
     Prompt.category := Some "other";
     Prompt.trigger_phrases := None;
     Prompt.content := "How can I help?";
     Prompt.ai_instructions := None;
     Prompt.requires_info_collection := Some true;
     Prompt.fields_to_collect := Some "name and phone";
     Prompt.priority := 1;
     Prompt.is_active := true |}.

(** An active prompt of the clinic that has the given key and priority,
    and a table in which three of four prompts have the same priority. *)
Definition ranked (id priority : Z) : Prompt.t :=
  {| Prompt.id := id;
     Prompt.business_id := 1;
     Prompt.category := Some "faq";
     Prompt.trigger_phrases := Some "[]";
     Prompt.content := "";
     Prompt.ai_instructions := None;
     Prompt.requires_info_collection := Some false;
     Prompt.fields_to_collect := None;
     Prompt.priority := priority;
     Prompt.is_active := true |}.

Definition tied : database :=
  {| businesses := [clinic];
     prompts := [ranked 1 5; ranked 2 5; ranked 3 9; ranked 4 5];
     calls := ∅ |}.

(** A second call under way, for the same business. *)
Definition other_record : Call.t :=
  {| Call.id := 2;
     Call.business_id := 1;
     Call.twilio_call_sid := Some "CA2";
     Call.caller_number := Some "+15550177";
     Call.called_number := Some "+15550100";
     Call.status := IN_PROGRESS;
     Call.duration_seconds := 0;
     Call.transcript := None;
     Call.call_summary := None;
     Call.sentiment := None;
     Call.collected_info := PyDict [];
     Call.action_taken := None;
     Call.action_details := PyDict [] |}.

Definition other_live : conversation :=
  {| ai_handler := receptionist;
     call_id := 2;
     business_id := 1;
     collected_info := [];
     transcript := ["Caller: good morning"; "AI: good morning"] |}.

(** Two calls in progress. *)
Definition busy_hour : world :=
  {| active_conversations := {[ "CA1" := live; "CA2" := other_live ]};
     db := {| businesses := [clinic];
              prompts := [scheduling];
              calls := {[ 1 := record; 2 := other_record ]} |} |}.

(** The call in progress, the clinic having no phone number. *)
Definition no_phone : world :=
  {| active_conversations := {[ "CA1" := live ]};
     db := {| businesses := [clinic_without_phone];
              prompts := [scheduling];
              calls := {[ 1 := record ]} |} |}.

(** Two businesses on one number, nobody calling. *)
Definition shared_number : world :=
  {| active_conversations := ∅;
     db := {| businesses := [clinic; twin]; prompts := []; calls := ∅ |} |}.

(** The clinic with the prompt that has no trigger phrase. *)
Definition with_untriggered : world :=
  {| active_conversations := ∅;
     db := {| businesses := [clinic];
              prompts := [scheduling; untriggered];
              calls := {[ 1 := record ]} |} |}.

(** The call in progress after its record was deleted. *)
Definition record_gone : world :=
  {| active_conversations := {[ "CA1" := live ]};
     db := {| businesses := [clinic]; prompts := [scheduling]; calls := ∅ |} |}.

(** The call in progress, answered by a handler without a client. *)
Definition mute : world :=
  {| active_conversations :=
       {[ "CA1" := {| ai_handler := unconfigured;
                      call_id := 1;
                      business_id := 1;
                      collected_info := [];
                      transcript := [] |} ]};
     db := store |}.


(** The model asks for a transfer, for the end of the call, or calls
    [schedule_appointment] with arguments that are a JSON array. *)
Definition model_transfers : env :=
  {| chat_create := fun _ =>
       Ok [ChatMessage (Some "One moment please.") (Some (FunctionCall "transfer_call" "{}"))];
     db_fault := no_fault |}.

Definition model_ends : env :=
  {| chat_create := fun _ =>
       Ok [ChatMessage None (Some (FunctionCall "end_call" "{}"))];
     db_fault := no_fault |}.


(** The model answers with a choice that has no content. *)
Definition model_silent : env :=
  {| chat_create := fun _ => Ok [ChatMessage None None];
     db_fault := no_fault |}.

(** A provider with one number on offer, and one with none. *)
Definition provider : Twilio.api :=
  {| Twilio.fetch := fun _ => Raise (Exn APIError "HTTP 404 error: call not found");
     Twilio.available_numbers := fun _ => Ok ["+15550142"; "+15550143"];
     Twilio.create_number := fun number => Ok number |}.

Definition sold_out : Twilio.api :=
  {| Twilio.fetch := fun _ => Raise (Exn APIError "HTTP 404 error: call not found");
     Twilio.available_numbers := fun _ => Ok [];
     Twilio.create_number := fun number => Ok number |}.

Definition telephony : TelephonyService := new_telephony (Some "AC1") (Some "token").

End Situations.

(* ===================================================================== *)
(** ** Properties: the model client *)
(* ===================================================================== *)

Section ClientProperties.
Context `{PyRuntime}.

Lemma eqb_empty_false (s : string) : s <> "" -> String.eqb s "" = false.
Proof. intros Hs. apply String.eqb_neq. exact Hs. Qed.

(** Without a client the call returns the first fixed reply and leaves
    the handler as it was: the utterance is not recorded. *)
Lemma process_input_unconfigured (e : env) (self : AIConversationHandler)
    (user_input : string) (collected_info : pydict) :
  client self = None ->
  process_input e self user_input collected_info =
    (Ok (dict_of
           [("response", PyStr "I apologize, but I'm having technical difficulties. Please hold while I transfer you to our staff.");
            ("action", PyStr "transfer");
            ("error", PyStr "OpenAI not configured")]),
     self).
Proof. intros Hc. unfold process_input. rewrite Hc. reflexivity. Qed.


(** Once the messages are assembled, [process_input] returns. *)
Lemma process_input_returns (e : env) (self : AIConversationHandler)
    (user_input : string) (collected_info : pydict) (messages : list pydict) :
  build_messages (append_history self (chat_entry "user" (PyStr user_input))) collected_info
    = Ok messages ->
  exists reply, fst (process_input e self user_input collected_info) = Ok reply.
Proof.
  intros Hm. unfold process_input. destruct (client self).
  - rewrite Hm. destruct (completion e messages); eexists; reflexivity.
  - eexists; reflexivity.
Qed.

(** The raised exception may come from the request itself, from an
    empty list of choices or from arguments that do not decode. *)
Lemma completion_request_fails (e : env) (messages : list pydict) (ex : exn) :
  chat_create e (turn_request messages) = Raise ex ->
  completion e messages = Raise ex.
Proof. intros Hr. unfold completion. rewrite Hr. reflexivity. Qed.

Lemma completion_arguments_fail (e : env) (messages : list pydict) (text : option string)
    (call : function_call) (rest : list chat_message) (ex : exn) :
  chat_create e (turn_request messages) = Ok (ChatMessage text (Some call) :: rest) ->
  json_loads (fc_arguments call) = Raise ex ->
  completion e messages = Raise ex.
Proof. intros Hr Hj. unfold completion. rewrite Hr. simpl. rewrite Hj. reflexivity. Qed.

(** The reply [process_input] builds when the model calls a function:
    the content when it has one, else the sentence of the action. *)
Lemma process_input_call_reply (e : env) (self : AIConversationHandler)
    (user_input key name arguments generated : string) (collected : pydict)
    (messages : list pydict) (text : option string) (rest : list chat_message)
    (data : pyval) :
  client self = Some key ->
  build_messages (append_history self (chat_entry "user" (PyStr user_input))) collected
    = Ok messages ->
  chat_create e (turn_request messages)
    = Ok (ChatMessage text (Some (FunctionCall name arguments)) :: rest) ->
  json_loads arguments = Ok data ->
  _get_action_response name data = Ok generated ->
  let reply :=
    match text with
    | Some t => if String.eqb t "" then generated else t
    | None => generated
    end in
  process_input e self user_input collected =
    (Ok (dict_of [("response", PyStr reply); ("action", PyStr name); ("action_data", data)]),
     append_history (append_history self (chat_entry "user" (PyStr user_input)))
       (chat_entry "assistant" (PyStr reply))).
Proof.
  intros Hclient Hmsgs Hcreate Hargs Hgen. cbn zeta.
  unfold process_input. rewrite Hclient, Hmsgs.
  unfold completion. rewrite Hcreate. cbn. rewrite Hargs. cbn.
  destruct text as [t |]; [destruct (String.eqb t "") |]; rewrite ?Hgen; reflexivity.
Qed.

(** The state a speech turn has built when the model client has
    answered or raised, and the branch it takes from there. *)
Lemma speech_turn_steps (e : env) (CallSid speech : string) (w : world) (c : conversation) :
  active_conversations w !! CallSid = Some c ->
  speech <> "" ->
  handle_speech_input e CallSid (Some speech) w =
    let heard := set_transcript c (transcript c ++ ["Caller: " +:+ speech])%list in
    let turn := process_input e (ai_handler c) speech (collected_info c) in
    match fst turn with
    | Raise ex => (Raise ex, set_conversation w CallSid (set_ai_handler heard (snd turn)))
    | Ok response =>
        let answered :=
          set_transcript (set_ai_handler heard (snd turn))
            (transcript heard ++ ["AI: " +:+ py_str (get response "response")])%list in
        let w' := set_conversation w CallSid answered in
        let continue :=
          (Ok (xml (create_response (get response "response") default_voice true false)), w') in
        if is_str (get response "action") "schedule_appointment" then
          schedule_appointment e CallSid answered response w'
        else if is_str (get response "action") "transfer_call" then
          match (let* _ := db_guard e SelectBusinessById in
                 scalar_one_or_none (select_business_by_id (db w') (business_id answered))) with
          | Raise ex => (Raise ex, w')
          | Ok (Some business) =>
              match Business.phone_number business with
              | Some number =>
                  if String.eqb number "" then continue
                  else (Ok (xml (transfer_call number (get response "response") default_voice)),
                        w')
              | None => continue
              end
          | Ok None => continue
          end
        else if is_str (get response "action") "end_call" then
          (Ok (xml (create_response (get response "response") default_voice true true)), w')
        else continue
    end.
Proof.
  intros Hlive Hspeech. unfold handle_speech_input.
  rewrite Hlive, (eqb_empty_false _ Hspeech).
  cbn [ai_handler collected_info set_transcript].
  destruct (process_input e (ai_handler c) speech (collected_info c)) as [[response | ex] h];
    reflexivity.
Qed.


End ClientProperties.

(* ===================================================================== *)
(** ** Properties: call start and degraded turns *)
(* ===================================================================== *)

Section StartProperties.
Context `{PyRuntime}.
Variable OPENAI_API_KEY : option string.

(** C5. When the lookup by called number finds no business, the answer
    is the "not configured" message followed by a hang-up, and neither
    the registry nor the store changes: no conversation state and no
    call record is created. *)
Theorem unmatched_number_hangs_up (e : env) (CallSid : string) (From To : option string)
    (w : world) :
  db_fault e SelectBusinessByNumber = None ->
  select_business_by_number (db w) To = [] ->
  handle_incoming_call OPENAI_API_KEY e CallSid From To w =
    (Ok (Response
           [Say (PyStr "We're sorry, but this number is not configured. Please try again later.")
                "Polly.Joanna";
            Hangup]
           "application/xml"),
     w).
Proof.
  intros Hquery Hnone. unfold handle_incoming_call, db_guard.
  rewrite Hquery. cbn. rewrite Hnone. reflexivity.
Qed.

(** The loop over the prompts leaves the history and the client of the
    handler alone. *)
Lemma add_prompts_keeps_history (self self' : AIConversationHandler) (data : list pydict) :
  add_prompts_to_context self data = Ok self' ->
  conversation_history self' = conversation_history self /\ client self' = client self.
Proof.
  unfold add_prompts_to_context. destruct data as [| p rest].
  - intros [= <-]. split; reflexivity.
  - destruct (prompt_sections (p :: rest)); cbn; intros [= <-]. split; reflexivity.
Qed.

(** A call start for a matched business, when the store answers and
    the prompts assemble: the greeting is returned, the call record is
    committed and the registry holds a fresh state under the call
    identifier, whatever it held before. *)
Lemma incoming_call_registers (e : env) (CallSid : string) (From To : option string)
    (w : world) (business : Business.t) (handler : AIConversationHandler) :
  select_business_by_number (db w) To = [business] ->
  (forall op, db_fault e op = None) ->
  add_prompts_to_context
    (new_handler OPENAI_API_KEY (business_context_of business))
    (map prompt_data_of (select_prompts (db w) (Business.id business))) = Ok handler ->
  handle_incoming_call OPENAI_API_KEY e CallSid From To w =
    (Ok (Response
           (create_greeting_response (of_option (Business.greeting_message business))
              (polly_voice (Business.ai_voice business)))
           "application/xml"),
     set_conversation (commit_call w (new_call (db w) business CallSid From To)) CallSid
       {| ai_handler := handler;
          call_id := next_call_id (calls (db w));
          business_id := Business.id business;
          collected_info := [];
          transcript := [] |}).
Proof.
  intros Hone Hquiet Hadd. unfold handle_incoming_call, db_guard.
  rewrite !Hquiet. cbn. rewrite Hone. cbn.
  unfold select_prompts, business_context_of, dict_of in Hadd. cbn in Hadd.
  rewrite Hadd. reflexivity.
Qed.

(** C3, as the code has it. The registry has no duplicate-key error:
    a call start for an identifier that is already registered succeeds
    and replaces the registered state by a fresh one, with no collected
    field, no transcript line and no history. *)
Theorem create_replaces_existing (e : env) (CallSid : string) (From To : option string)
    (w : world) (old : conversation) (business : Business.t)
    (handler : AIConversationHandler) :
  active_conversations w !! CallSid = Some old ->
  select_business_by_number (db w) To = [business] ->
  (forall op, db_fault e op = None) ->
  add_prompts_to_context
    (new_handler OPENAI_API_KEY (business_context_of business))
    (map prompt_data_of (select_prompts (db w) (Business.id business))) = Ok handler ->
  exists (reply : http_response) (w' : world),
    handle_incoming_call OPENAI_API_KEY e CallSid From To w = (Ok reply, w')
    /\ active_conversations w' !! CallSid =
         Some {| ai_handler := handler;
                 call_id := next_call_id (calls (db w));
                 business_id := Business.id business;
                 collected_info := [];
                 transcript := [] |}
    /\ conversation_history handler = [].
Proof.
  intros _ Hone Hquiet Hadd.
  eexists. eexists. split; [| split].
  - apply (incoming_call_registers e CallSid From To w business handler Hone Hquiet Hadd).
  - cbn. apply lookup_insert_eq.
  - apply add_prompts_keeps_history in Hadd. destruct Hadd as [Hh _]. exact Hh.
Qed.

(** C7. A speech turn for an unknown call, or with no text or empty
    text, is answered by the fixed "didn't catch that" message inside a
    gather, and the registry and the store are returned as they were:
    no history, transcript or collected field changes. *)
Theorem degraded_turn_changes_nothing (e : env) (CallSid : string)
    (SpeechResult : option string) (w : world) :
  active_conversations w !! CallSid = None \/ SpeechResult = None \/ SpeechResult = Some "" ->
  handle_speech_input e CallSid SpeechResult w =
    (Ok (Response
           [Gather "speech" "/api/webhooks/twilio/handle-input" "POST" "auto" "en-US"
              [Say (PyStr "I'm sorry, I didn't catch that. Could you please repeat?")
                   "Polly.Joanna"];
            Say (PyStr "Are you still there?") "Polly.Joanna";
            Redirect "/api/webhooks/twilio/voice"]
           "application/xml"),
     w).
Proof.
  intros [Habsent | [Hnone | Hempty]]; unfold handle_speech_input.
  - rewrite Habsent. reflexivity.
  - rewrite Hnone. destruct (active_conversations w !! CallSid); reflexivity.
  - rewrite Hempty. destruct (active_conversations w !! CallSid); reflexivity.
Qed.

End StartProperties.

(* ===================================================================== *)
(** ** Properties: the terminal status event *)
(* ===================================================================== *)

Section StatusProperties.
Context `{PyRuntime}.

(** The two ways out of [handle_call_status]: it returns, and then the
    identifier is no longer registered; or a store operation raises,
    and then nothing has changed. *)
Lemma call_status_outcome (e : env) (CallSid status : string) (duration : option Z)
    (w : world) :
  match handle_call_status e CallSid status duration w with
  | (Ok reply, w') => reply = acknowledgement /\ active_conversations w' !! CallSid = None
  | (Raise _, w') => w' = w
  end.
Proof.
  unfold handle_call_status, db_guard.
  destruct (active_conversations w !! CallSid) as [c |] eqn:Hlive.
  - destruct (db_fault e SelectCall); cbn; [reflexivity |].
    unfold select_call. destruct (calls (db w) !! call_id c); cbn.
    + destruct (db_fault e CommitCall); cbn; [reflexivity |].
      split; [reflexivity | apply lookup_delete_eq].
    + split; [reflexivity | apply lookup_delete_eq].
  - split; [reflexivity | exact Hlive].
Qed.

(** A status event for an identifier that is not registered returns the
    acknowledgement and changes nothing. *)
Lemma call_status_unregistered (e : env) (CallSid status : string) (duration : option Z)
    (w : world) :
  active_conversations w !! CallSid = None ->
  handle_call_status e CallSid status duration w = (Ok acknowledgement, w).
Proof. intros Hnone. unfold handle_call_status. rewrite Hnone. reflexivity. Qed.

(** C2, as the code has it. For a registered call the status webhook
    ends in one of two ways, and the store decides which. When the
    lookup of the call record raises, or the record is found and its
    commit raises, that exception leaves the webhook before the
    eviction: the state is still registered and the store is as it was.
    In every other case the webhook returns the acknowledgement and no
    state is registered for the identifier, whether or not a call
    record was found to write. *)
Theorem status_evicts_when_it_returns (e : env) (CallSid status : string)
    (duration : option Z) (w : world) (c : conversation) :
  active_conversations w !! CallSid = Some c ->
  let outcome := fst (handle_call_status e CallSid status duration w) in
  let after := snd (handle_call_status e CallSid status duration w) in
  match db_fault e SelectCall, calls (db w) !! call_id c, db_fault e CommitCall with
  | Some ex, _, _ | None, Some _, Some ex =>
      outcome = Raise ex
      /\ active_conversations after !! CallSid = Some c
      /\ after = w
  | None, _, _ =>
      outcome = Ok acknowledgement
      /\ active_conversations after !! CallSid = None
  end.
Proof.
  intros Hlive. cbn zeta. unfold handle_call_status, db_guard. rewrite Hlive.
  destruct (db_fault e SelectCall) as [ex |]; cbn.
  - split; [reflexivity |]. split; [exact Hlive | reflexivity].
  - unfold select_call. destruct (calls (db w) !! call_id c) as [call |]; cbn.
    + destruct (db_fault e CommitCall) as [ex |]; cbn.
      * split; [reflexivity |]. split; [exact Hlive | reflexivity].
      * split; [reflexivity | apply lookup_delete_eq].
    + destruct (db_fault e CommitCall); split; try reflexivity; apply lookup_delete_eq.
Qed.

(** C8. A terminal status event delivered again after one was
    processed returns the acknowledgement and leaves the registry and
    the store as the first delivery left them. *)
Theorem second_status_is_noop (e1 e2 : env) (CallSid status1 status2 : string)
    (duration1 duration2 : option Z) (w w1 : world) (reply : http_response) :
  handle_call_status e1 CallSid status1 duration1 w = (Ok reply, w1) ->
  handle_call_status e2 CallSid status2 duration2 w1
    = (Ok (JsonBody [(PyStr "status", PyStr "ok")]), w1).
Proof.
  intros Hfirst.
  pose proof (call_status_outcome e1 CallSid status1 duration1 w) as Hout.
  rewrite Hfirst in Hout. destruct Hout as [_ Hgone].
  apply call_status_unregistered. exact Hgone.
Qed.

(** The table read with its default, case by case. *)
Lemma status_map_get_cases (key : string) :
  status_map_get key =
    if String.eqb "completed" key then COMPLETED
    else if String.eqb "busy" key then MISSED
    else if String.eqb "no-answer" key then MISSED
    else if String.eqb "canceled" key then MISSED
    else if String.eqb "failed" key then FAILED
    else COMPLETED.
Proof.
  unfold status_map_get, status_map. cbn [find fst snd].
  destruct (String.eqb "completed" key); [reflexivity |].
  destruct (String.eqb "busy" key); [reflexivity |].
  destruct (String.eqb "no-answer" key); [reflexivity |].
  destruct (String.eqb "canceled" key); [reflexivity |].
  destruct (String.eqb "failed" key); reflexivity.
Qed.

(** C4, as the code has it. On a terminal status event for a
    registered call whose record is found and committed, the stored
    status is read from the provider status in lower case: completed
    gives COMPLETED, busy, no-answer and canceled give MISSED, failed
    gives FAILED and anything else COMPLETED; the stored duration is
    the reported number of seconds, and 0 when none is reported. *)
Theorem status_is_mapped_in_lower_case (e : env) (CallSid status : string)
    (duration : option Z) (w : world) (c : conversation) (call : Call.t) :
  active_conversations w !! CallSid = Some c ->
  calls (db w) !! call_id c = Some call ->
  db_fault e SelectCall = None ->
  db_fault e CommitCall = None ->
  exists (w' : world) (call' : Call.t),
    handle_call_status e CallSid status duration w = (Ok acknowledgement, w')
    /\ calls (db w') !! Call.id call = Some call'
    /\ Call.status call' =
         (let low := str_lower status in
          if String.eqb "completed" low then COMPLETED
          else if String.eqb "busy" low then MISSED
          else if String.eqb "no-answer" low then MISSED
          else if String.eqb "canceled" low then MISSED
          else if String.eqb "failed" low then FAILED
          else COMPLETED)
    /\ Call.duration_seconds call' = match duration with Some n => n | None => 0 end
    /\ Call.transcript call' = Some (String.concat nl (transcript c)).
Proof.
  intros Hlive Hcall Hselect Hcommit.
  unfold handle_call_status, db_guard, select_call.
  rewrite Hlive, Hselect. cbn. rewrite Hcall. cbn. rewrite Hcommit. cbn.
  eexists. eexists. split; [reflexivity |]. split.
  - cbn. apply lookup_insert_eq.
  - cbn. split; [apply status_map_get_cases |]. split; reflexivity.
Qed.

End StatusProperties.

(* ===================================================================== *)
(** ** Properties: scheduling and the prompt lists *)
(* ===================================================================== *)

Section TurnProperties.
Context `{PyRuntime}.

(** A key set with [setitem] is read back, and the other str keys keep
    what they had. *)
Lemma lookup_setitem (d : pydict) (k k' : string) (v : pyval) :
  lookup_key (setitem d (PyStr k) v) k' =
    if String.eqb k k' then Some v else lookup_key d k'.
Proof.
  induction d as [| [k0 v0] rest IH]; cbn.
  - reflexivity.
  - destruct k0 as [| b | lexeme | s | items | entries]; cbn; try exact IH.
    destruct (String.eqb s k) eqn:Hsk; cbn.
    + apply String.eqb_eq in Hsk. subst s.
      destruct (String.eqb k k'); reflexivity.
    + destruct (String.eqb s k') eqn:Hsk'.
      * apply String.eqb_eq in Hsk'. subst s.
        rewrite String.eqb_sym in Hsk. rewrite Hsk. reflexivity.
      * exact IH.
Qed.

(** A key that is not a str leaves what is read under the str keys. *)
Lemma lookup_setitem_other (d : pydict) (k v : pyval) (k' : string) :
  (forall s, k <> PyStr s) ->
  lookup_key (setitem d k v) k' = lookup_key d k'.
Proof.
  intros Hk. induction d as [| [k0 v0] rest IH]; cbn [setitem lookup_key].
  - destruct k; try reflexivity. exfalso. eapply Hk. reflexivity.
  - destruct (key_eq k0 k) eqn:Heq; cbn [lookup_key].
    + destruct k0; try reflexivity.
      destruct k; try discriminate Heq. exfalso. eapply Hk. reflexivity.
    + destruct (is_str k0 k'); [reflexivity | exact IH].
Qed.

(** What [d.update(fields)] leaves under a str key, whatever the keys of
    the fields are: the last value the fields give the key, and else
    what the dict had. *)
Lemma lookup_merged (d fields : pydict) (k : string) :
  lookup_key (update_dict d fields) k =
    match lookup_key (rev fields) k with
    | Some v => Some v
    | None => lookup_key d k
    end.
Proof.
  induction fields as [| [k0 v0] rest IH] using rev_ind; [reflexivity |].
  unfold update_dict in *. rewrite fold_left_app. cbn [fold_left fst snd].
  rewrite rev_app_distr. cbn [rev app lookup_key].
  destruct k0 as [| b | lexeme | s | items | entries];
    try (rewrite lookup_setitem_other by discriminate; cbn [is_str]; exact IH).
  rewrite lookup_setitem. cbn [is_str].
  destruct (String.eqb s k); [reflexivity | exact IH].
Qed.

(** A turn on which the model calls [schedule_appointment] with
    arguments that decode to a dict, the store answering: the document
    returned and the world afterwards, with and without a record of the
    call in the store. *)
Lemma scheduling_turn (e : env) (CallSid speech key arguments : string) (w : world)
    (c : conversation) (messages : list pydict) (text : option string)
    (rest : list chat_message) (fields : pydict) :
  active_conversations w !! CallSid = Some c ->
  speech <> "" ->
  client (ai_handler c) = Some key ->
  build_messages (append_history (ai_handler c) (chat_entry "user" (PyStr speech)))
    (collected_info c) = Ok messages ->
  chat_create e (turn_request messages)
    = Ok (ChatMessage text (Some (FunctionCall "schedule_appointment" arguments)) :: rest) ->
  json_loads arguments = Ok (PyDict fields) ->
  db_fault e SelectCall = None ->
  db_fault e CommitCall = None ->
  let generated :=
    "I've scheduled your appointment for " +:+ py_str (get fields "preferred_date") +:+ " at "
    +:+ py_str (get fields "preferred_time") +:+ ". We'll see you then, "
    +:+ py_str (get fields "patient_name") +:+ "!" in
  let reply :=
    match text with
    | Some t => if String.eqb t "" then generated else t
    | None => generated
    end in
  let c' :=
    {| ai_handler :=
         append_history
           (append_history (ai_handler c) (chat_entry "user" (PyStr speech)))
           (chat_entry "assistant" (PyStr reply));
       call_id := call_id c;
       business_id := business_id c;
       collected_info := update_dict (collected_info c) fields;
       transcript := (transcript c ++ ["Caller: " +:+ speech; "AI: " +:+ reply])%list |} in
  handle_speech_input e CallSid (Some speech) w =
    (Ok (Response [Say (PyStr reply) "Polly.Joanna"; Hangup] "application/xml"),
     match calls (db w) !! call_id c with
     | Some call =>
         commit_call (set_conversation w CallSid c')
           {| Call.id := Call.id call;
              Call.business_id := Call.business_id call;
              Call.twilio_call_sid := Call.twilio_call_sid call;
              Call.caller_number := Call.caller_number call;
              Call.called_number := Call.called_number call;
              Call.status := Call.status call;
              Call.duration_seconds := Call.duration_seconds call;
              Call.transcript := Call.transcript call;
              Call.call_summary := Call.call_summary call;
              Call.sentiment := Call.sentiment call;
              Call.collected_info := PyDict (update_dict (collected_info c) fields);
              Call.action_taken := Some "appointment_scheduled";
              Call.action_details := PyDict fields |}
     | None => set_conversation w CallSid c'
     end).
Proof.
  intros Hlive Hspeech Hclient Hmsgs Hcreate Hargs Hselect Hcommit. cbn zeta.
  rewrite (speech_turn_steps e CallSid speech w c Hlive Hspeech).
  rewrite (process_input_call_reply e _ speech key "schedule_appointment" arguments
             ("I've scheduled your appointment for " +:+ py_str (get fields "preferred_date")
              +:+ " at " +:+ py_str (get fields "preferred_time")
              +:+ ". We'll see you then, " +:+ py_str (get fields "patient_name") +:+ "!")
             _ messages text rest (PyDict fields) Hclient Hmsgs Hcreate Hargs eq_refl).
  cbn -[truthy dict_update]. unfold schedule_appointment, db_guard, select_call.
  assert (Hmerge : (if truthy (PyDict fields)
                    then dict_update (collected_info c) (PyDict fields)
                    else (collected_info c, None))
                   = (update_dict (collected_info c) fields, None)).
  { destruct fields; reflexivity. }
  cbn -[truthy dict_update]. rewrite Hmerge, Hselect. cbn.
  destruct (calls (db w) !! call_id c) as [call |]; cbn.
  - rewrite Hcommit. cbn. unfold commit_call, set_conversation. cbn.
    rewrite insert_insert_eq, <- !app_assoc. reflexivity.
  - unfold set_conversation. cbn.
    rewrite insert_insert_eq, <- !app_assoc. reflexivity.
Qed.

(** C6, as the code has it. On a speech turn of a registered call on
    which the model calls [schedule_appointment] with arguments that
    decode to fields, the store answering, the returned voice response
    says the reply and hangs up, and the fields are merged into the
    collected ones of the call: under every key the last value the
    fields give it, and else what was collected before. The write to
    the store depends on the record of the call. When it is found, it
    is committed with the collected information, the action
    "appointment_scheduled" and the fields as its details, and the
    returned pair holds the response together with the committed store.
    When no record is found, nothing is written, and the response is
    the same hang-up. *)
Theorem schedule_commits_then_hangs_up (e : env) (CallSid speech key arguments : string)
    (w : world) (c : conversation) (messages : list pydict) (text : option string)
    (rest : list chat_message) (fields : pydict) :
  active_conversations w !! CallSid = Some c ->
  speech <> "" ->
  client (ai_handler c) = Some key ->
  build_messages (append_history (ai_handler c) (chat_entry "user" (PyStr speech)))
    (collected_info c) = Ok messages ->
  chat_create e (turn_request messages)
    = Ok (ChatMessage text (Some (FunctionCall "schedule_appointment" arguments)) :: rest) ->
  json_loads arguments = Ok (PyDict fields) ->
  db_fault e SelectCall = None ->
  db_fault e CommitCall = None ->
  let generated :=
    "I've scheduled your appointment for " +:+ py_str (get fields "preferred_date") +:+ " at "
    +:+ py_str (get fields "preferred_time") +:+ ". We'll see you then, "
    +:+ py_str (get fields "patient_name") +:+ "!" in
  let reply :=
    match text with
    | Some t => if String.eqb t "" then generated else t
    | None => generated
    end in
  let after := snd (handle_speech_input e CallSid (Some speech) w) in
  fst (handle_speech_input e CallSid (Some speech) w)
    = Ok (Response [Say (PyStr reply) "Polly.Joanna"; Hangup] "application/xml")
  /\ exists c' : conversation,
       active_conversations after !! CallSid = Some c'
       /\ collected_info c' = update_dict (collected_info c) fields
       /\ (forall k : string,
             lookup_key (collected_info c') k =
               match lookup_key (rev fields) k with
               | Some v => Some v
               | None => lookup_key (collected_info c) k
               end)
       /\ match calls (db w) !! call_id c with
          | Some call =>
              exists call' : Call.t,
                calls (db after) !! Call.id call = Some call'
                /\ Call.collected_info call' = PyDict (collected_info c')
                /\ Call.action_taken call' = Some "appointment_scheduled"
                /\ Call.action_details call' = PyDict fields
          | None => db after = db w
          end.
Proof.
  intros Hlive Hspeech Hclient Hmsgs Hcreate Hargs Hselect Hcommit. cbn zeta.
  rewrite (scheduling_turn e CallSid speech key arguments w c messages text rest fields
             Hlive Hspeech Hclient Hmsgs Hcreate Hargs Hselect Hcommit).
  cbn [fst snd]. split; [reflexivity |].
  eexists. split.
  - destruct (calls (db w) !! call_id c); cbn; apply lookup_insert_eq.
  - cbn [collected_info]. split; [reflexivity |].
    split; [intros k; apply lookup_merged |].
    destruct (calls (db w) !! call_id c) as [call |]; cbn.
    + eexists. split; [apply lookup_insert_eq |]. repeat split.
    + reflexivity.
Qed.

(** C9, as the code has it. Each list column of a prompt is decoded
    on its own, and text that does not decode is recovered in two
    different ways: undecodable trigger phrases are kept whole as the
    one phrase mentioned, and undecodable fields to collect are read as
    the empty sequence, so that nothing follows "Collect: ". The
    undecodable column never makes the section fail: the section is
    produced whenever the other column, if it decodes, holds something
    that can be joined. The fields are read only when the prompt
    collects information. *)
Theorem undecodable_lists (p : Prompt.t) (phrases mentions collect : string) :
  Prompt.trigger_phrases p = Some phrases ->
  match json_loads phrases with
  | Raise _ => mentions = phrases
  | Ok decoded => py_join ", " decoded = Ok mentions
  end ->
  (Prompt.requires_info_collection p = Some true ->
   exists fields : string,
     Prompt.fields_to_collect p = Some fields
     /\ match json_loads fields with
        | Raise _ => collect = ""
        | Ok decoded => py_join ", " decoded = Ok collect
        end) ->
  let section :=
    nl +:+ "When caller mentions: " +:+ mentions +:+ nl
    +:+ "Category: " +:+ py_str (of_option (Prompt.category p)) +:+ nl
    +:+ "Response: " +:+ Prompt.content p +:+ nl
    +:+ "Instructions: " +:+ py_str (of_option (Prompt.ai_instructions p)) +:+ nl in
  prompt_section (prompt_data_of p) =
    Ok match Prompt.requires_info_collection p with
       | Some true => section +:+ "Collect: " +:+ collect +:+ nl
       | _ => section
       end.
Proof.
  intros Hphrases Hmentions Hcollect. cbn zeta.
  assert (Hjoin : py_join ", " (decode_triggers (PyStr phrases)) = Ok mentions).
  { unfold decode_triggers. destruct (json_loads phrases) as [decoded | ex]; cbn [try_except].
    - exact Hmentions.
    - subst mentions. reflexivity. }
  unfold prompt_section, prompt_data_of. rewrite Hphrases.
  destruct (Prompt.requires_info_collection p) as [[|] |].
  - destruct (Hcollect eq_refl) as (fields & Hfields & Hread). rewrite Hfields.
    cbn [dict_of map fst snd get get_default lookup_key is_str String.eqb Ascii.eqb Bool.eqb
         of_option truthy].
    rewrite Hjoin. cbn [bind].
    assert (Hjoin2 : py_join ", " (decode_fields (PyStr fields)) = Ok collect).
    { unfold decode_fields. destruct (json_loads fields) as [decoded | ex]; cbn [try_except].
      - exact Hread.
      - subst collect. reflexivity. }
    rewrite Hjoin2. reflexivity.
  - cbn [dict_of map fst snd get get_default lookup_key is_str String.eqb Ascii.eqb Bool.eqb
         of_option truthy].
    rewrite Hjoin. reflexivity.
  - cbn [dict_of map fst snd get get_default lookup_key is_str String.eqb Ascii.eqb Bool.eqb
         of_option truthy].
    rewrite Hjoin. reflexivity.
Qed.

End TurnProperties.

(* ===================================================================== *)
(** ** The properties on the call in progress *)
(* ===================================================================== *)

Section Cases.
Import Scenario.
#[local] Existing Instance Reference.runtime.

(** C1. The model cannot be reached during a turn of the call in
    progress, or the client is not configured: [process_input] does not
    raise and returns a fixed reply with the error marker, but under
    the action "transfer", which is not the "transfer_call" the speech
    webhook branches on; the webhook therefore answers with a gather
    and dials nobody. *)
Theorem fallback_action_is_transfer :
  process_input model_down receptionist "I need a dentist" [] =
    (Ok (dict_of
           [("response", PyStr "I apologize, but I'm experiencing some issues. Let me transfer you to our staff.");
            ("action", PyStr "transfer");
            ("error", PyStr "Connection error.")]),
     append_history receptionist (chat_entry "user" (PyStr "I need a dentist")))
  /\ process_input quiet unconfigured "I need a dentist" [] =
       (Ok (dict_of
              [("response", PyStr "I apologize, but I'm having technical difficulties. Please hold while I transfer you to our staff.");
               ("action", PyStr "transfer");
               ("error", PyStr "OpenAI not configured")]),
        unconfigured)
  /\ is_str (PyStr "transfer") "transfer_call" = false
  /\ fst (handle_speech_input model_down "CA1" (Some "I need a dentist") w0) =
       Ok (Response
             [Gather "speech" "/api/webhooks/twilio/handle-input" "POST" "auto" "en-US"
                [Say (PyStr "I apologize, but I'm experiencing some issues. Let me transfer you to our staff.")
                     "Polly.Joanna"];
              Say (PyStr "Are you still there?") "Polly.Joanna";
              Redirect "/api/webhooks/twilio/voice"]
             "application/xml").
Proof. repeat split; vm_compute; reflexivity. Qed.

(** C2, counterexample. The commit of the call record fails during the
    terminal status event of the call in progress: the exception leaves
    the webhook and the state is still registered. *)
Lemma failed_commit_keeps_state :
  handle_call_status commit_fails "CA1" "completed" (Some 42) w0 =
    (Raise (Exn DatabaseError "database is locked"), w0)
  /\ active_conversations
       (snd (handle_call_status commit_fails "CA1" "completed" (Some 42) w0)) !! "CA1"
     = Some live.
Proof. split; vm_compute; reflexivity. Qed.

(** C3, counterexample. A call start for the identifier of the call in
    progress is not refused: it returns the greeting, and the state
    registered afterwards has lost the transcript of the call. *)
Lemma duplicate_call_start_replaces :
  (transcript <$> active_conversations w0 !! "CA1") = Some ["Caller: hi"; "AI: hello"]
  /\ fst (handle_incoming_call (Some "sk-test") quiet "CA1"
            (Some "+15550199") (Some "+15550100") w0) =
       Ok (Response (create_greeting_response (PyStr "Hello!") "Polly.Joanna") "application/xml")
  /\ (transcript <$>
        active_conversations
          (snd (handle_incoming_call (Some "sk-test") quiet "CA1"
                  (Some "+15550199") (Some "+15550100") w0)) !! "CA1")
     = Some [].
Proof. repeat split; vm_compute; reflexivity. Qed.

(** C4, counterexample. The provider status "BUSY" is none of the five
    listed values, and it is stored as MISSED, not COMPLETED. *)
Lemma upper_case_busy_is_missed :
  ~ In "BUSY" ["completed"; "busy"; "no-answer"; "canceled"; "failed"]
  /\ (Call.status <$>
        calls (db (snd (handle_call_status quiet "CA1" "BUSY" (Some 7) w0))) !! 1)
     = Some MISSED.
Proof.
  split.
  - cbn. intros [Heq | [Heq | [Heq | [Heq | [Heq | []]]]]]; discriminate Heq.
  - vm_compute. reflexivity.
Qed.

(** C6, counterexample. The model schedules Jane's appointment during
    the call in progress after the record of the call was deleted: the
    webhook answers with the hang-up, and no record holds the
    appointment, the store being as it was. *)
Lemma schedule_without_record_writes_nothing :
  fst (handle_speech_input model_schedules "CA1" (Some "Book me for June first at ten")
         Situations.record_gone)
    = Ok (Response
            [Say (PyStr "I've scheduled your appointment for 2024-06-01 at 10:00. We'll see you then, Jane!")
                 "Polly.Joanna";
             Hangup]
            "application/xml")
  /\ calls (db (snd (handle_speech_input model_schedules "CA1"
                       (Some "Book me for June first at ten") Situations.record_gone))) !! 1
     = None
  /\ db (snd (handle_speech_input model_schedules "CA1"
                (Some "Book me for June first at ten") Situations.record_gone))
     = db Situations.record_gone.
Proof. repeat split; vm_compute; reflexivity. Qed.

(** C9, counterexample. The text "billing, invoice" is not JSON, and
    the trigger phrases read from it are not the empty sequence: they
    are the text itself. *)
Lemma undecodable_triggers_are_kept :
  json_loads "billing, invoice" = Raise (Exn JSONDecodeError "Expecting value")
  /\ decode_triggers (PyStr "billing, invoice") = PyList [PyStr "billing, invoice"]
  /\ decode_triggers (PyStr "billing, invoice") <> PyList [].
Proof.
  split; [vm_compute; reflexivity |]. split; [vm_compute; reflexivity |].
  vm_compute. discriminate.
Qed.

(** The status "completed" for the call in progress, the store
    answering. *)
Lemma status_evicts_witness :
  fst (handle_call_status quiet "CA1" "completed" (Some 42) w0) = Ok acknowledgement
  /\ active_conversations (snd (handle_call_status quiet "CA1" "completed" (Some 42) w0)) !! "CA1"
     = None.
Proof.
  exact (status_evicts_when_it_returns quiet "CA1" "completed" (Some 42) w0 live eq_refl).
Defined.

(** One undecodable column next to a column that decodes: the fields of
    the first prompt are read as none, the phrase of the second is kept
    whole, and both sections are produced. The undecodable fields of
    the third prompt do not make up for its null trigger phrases. *)
Lemma one_undecodable_column :
  prompt_section (prompt_data_of Situations.intake) =
    Ok (nl +:+ "When caller mentions: new patient, register" +:+ nl
        +:+ "Category: intake" +:+ nl
        +:+ "Response: Welcome to the practice." +:+ nl
        +:+ "Instructions: None" +:+ nl
        +:+ "Collect: " +:+ nl)
  /\ prompt_section (prompt_data_of Situations.callback) =
       Ok (nl +:+ "When caller mentions: call me back" +:+ nl
           +:+ "Category: callback" +:+ nl
           +:+ "Response: We will call you back." +:+ nl
           +:+ "Instructions: None" +:+ nl
           +:+ "Collect: phone_number" +:+ nl)
  /\ prompt_section (prompt_data_of Situations.unlisted) =
       Raise (Exn TypeError "can only join an iterable").
Proof. repeat split; vm_compute; reflexivity. Qed.

(** A second call start for "CA1" while the call is in progress. *)
Lemma create_replaces_existing_witness :
  exists (handler : AIConversationHandler) (reply : http_response) (w' : world),
    handle_incoming_call (Some "sk-test") quiet "CA1" (Some "+15550199") (Some "+15550100") w0
      = (Ok reply, w')
    /\ active_conversations w' !! "CA1" =
         Some {| ai_handler := handler;
                 call_id := next_call_id (calls (db w0));
                 business_id := Business.id clinic;
                 collected_info := [];
                 transcript := [] |}
    /\ conversation_history handler = [].
Proof.
  eexists.
  apply (create_replaces_existing (Some "sk-test") quiet "CA1"
           (Some "+15550199") (Some "+15550100") w0 live clinic).
  - reflexivity.
  - reflexivity.
  - intros op. reflexivity.
  - reflexivity.
Defined.

(** The status "Completed" with 42 seconds for the call in progress. *)
Lemma status_is_mapped_witness :
  exists (w' : world) (call' : Call.t),
    handle_call_status quiet "CA1" "Completed" (Some 42) w0 = (Ok acknowledgement, w')
    /\ calls (db w') !! 1 = Some call'
    /\ Call.status call' = COMPLETED
    /\ Call.duration_seconds call' = 42
    /\ Call.transcript call' = Some ("Caller: hi" +:+ nl +:+ "AI: hello").
Proof.
  exact (status_is_mapped_in_lower_case quiet "CA1" "Completed" (Some 42) w0 live record
           eq_refl eq_refl eq_refl eq_refl).
Defined.

(** A call to a number no business owns. *)
Lemma unmatched_number_witness :
  handle_incoming_call (Some "sk-test") quiet "CA2" (Some "+15550199") (Some "+15550000") w0 =
    (Ok (Response
           [Say (PyStr "We're sorry, but this number is not configured. Please try again later.")
                "Polly.Joanna";
            Hangup]
           "application/xml"),
     w0).
Proof.
  apply (unmatched_number_hangs_up (Some "sk-test") quiet "CA2"
           (Some "+15550199") (Some "+15550000") w0); reflexivity.
Defined.

(** The model schedules Jane's appointment during the call in progress. *)
Lemma schedule_witness :
  fst (handle_speech_input model_schedules "CA1" (Some "Book me for June first at ten") w0)
    = Ok (Response
            [Say (PyStr "I've scheduled your appointment for 2024-06-01 at 10:00. We'll see you then, Jane!")
                 "Polly.Joanna";
             Hangup]
            "application/xml")
  /\ exists c' : conversation,
       active_conversations
         (snd (handle_speech_input model_schedules "CA1" (Some "Book me for June first at ten") w0))
         !! "CA1" = Some c'
       /\ collected_info c' = update_dict [] jane_fields
       /\ (forall k : string,
             lookup_key (collected_info c') k =
               match lookup_key (rev jane_fields) k with
               | Some v => Some v
               | None => lookup_key [] k
               end)
       /\ exists call' : Call.t,
            calls
              (db (snd (handle_speech_input model_schedules "CA1"
                          (Some "Book me for June first at ten") w0))) !! 1 = Some call'
            /\ Call.collected_info call' = PyDict (collected_info c')
            /\ Call.action_taken call' = Some "appointment_scheduled"
            /\ Call.action_details call' = PyDict jane_fields.
Proof.
  refine (schedule_commits_then_hangs_up model_schedules "CA1"
            "Book me for June first at ten" "sk-test" jane w0 live _ None [] jane_fields
            _ _ _ _ _ _ _ _).
  - reflexivity.
  - discriminate.
  - reflexivity.
  - reflexivity.
  - reflexivity.
  - vm_compute. reflexivity.
  - reflexivity.
  - reflexivity.
Defined.

(** Empty text on the call in progress. *)
Lemma degraded_turn_witness :
  handle_speech_input quiet "CA1" (Some "") w0 =
    (Ok (Response
           [Gather "speech" "/api/webhooks/twilio/handle-input" "POST" "auto" "en-US"
              [Say (PyStr "I'm sorry, I didn't catch that. Could you please repeat?")
                   "Polly.Joanna"];
            Say (PyStr "Are you still there?") "Polly.Joanna";
            Redirect "/api/webhooks/twilio/voice"]
           "application/xml"),
     w0).
Proof.
  apply (degraded_turn_changes_nothing quiet "CA1" (Some "") w0).
  right. right. reflexivity.
Defined.

(** The status "completed" delivered twice for the call in progress. *)
Lemma second_status_witness :
  handle_call_status quiet "CA1" "completed" (Some 42)
    (snd (handle_call_status quiet "CA1" "completed" (Some 42) w0))
  = (Ok (JsonBody [(PyStr "status", PyStr "ok")]),
     snd (handle_call_status quiet "CA1" "completed" (Some 42) w0)).
Proof.
  apply (second_status_is_noop quiet quiet "CA1" "completed" "completed" (Some 42) (Some 42)
           w0 _ acknowledgement).
  vm_compute. reflexivity.
Defined.

(** The prompt whose list columns hold plain text. *)
Lemma undecodable_lists_witness :
  prompt_section (prompt_data_of billing) =
    Ok (nl +:+ "When caller mentions: billing, invoice" +:+ nl
        +:+ "Category: faq" +:+ nl
        +:+ "Response: Our billing desk can help." +:+ nl
        +:+ "Instructions: None" +:+ nl
        +:+ "Collect: " +:+ nl).
Proof.
  refine (undecodable_lists billing "billing, invoice" "billing, invoice" "" _ _ _).
  - reflexivity.
  - vm_compute. reflexivity.
  - intros _. exists "name and phone". split; [reflexivity |]. vm_compute. reflexivity.
Defined.


End Cases.

(* ===================================================================== *)
(** ** Further properties: the model client *)
(* ===================================================================== *)

Section FurtherClient.
Context `{PyRuntime}.

Lemma existsb_eqb_In (s : string) (l : list string) :
  existsb (String.eqb s) l = true -> In s l.
Proof.
  induction l as [| a l IH]; cbn; [discriminate |].
  destruct (String.eqb s a) eqn:Heq; cbn.
  - intros _. left. symmetry. apply String.eqb_eq. exact Heq.
  - intros Hrest. right. apply IH. exact Hrest.
Qed.

(** X1. Whatever the model answers, and whether or not the client is
    configured, the sentiment is one of the three words. *)
Theorem sentiment_is_one_of_three (e : env) (self : AIConversationHandler) (text : string) :
  In (analyze_sentiment e self text) ["positive"; "neutral"; "negative"].
Proof.
  assert (Hneutral : In "neutral" ["positive"; "neutral"; "negative"])
    by (right; left; reflexivity).
  unfold analyze_sentiment. destruct (client self); [| exact Hneutral].
  destruct (chat_create e _) as [choices | ex]; cbn -[In existsb]; [| exact Hneutral].
  unfold stripped_content, first_choice.
  destruct choices as [| message rest]; cbn -[In existsb]; [exact Hneutral |].
  destruct (content message) as [raw |]; cbn -[In existsb]; [| exact Hneutral].
  match goal with
  | |- context [existsb ?f ?l] => destruct (existsb f l) eqn:Hknown
  end; cbn -[In existsb]; [| exact Hneutral].
  apply existsb_eqb_In. exact Hknown.
Qed.

(** X2. When the model gives no text (the request raises, no choice
    comes back, or the choice has no content) the sentiment is neutral
    and the summary is a fixed sentence: "Unable to generate summary."
    when there was a client and something to summarize, and "No
    conversation to summarize." otherwise. *)
Theorem no_text_gives_fixed_answers (e : env) (self : AIConversationHandler) (text : string) :
  (forall request, no_text (chat_create e request)) ->
  analyze_sentiment e self text = "neutral"
  /\ summarize_call e self =
       match client self, conversation_history self with
       | Some _, _ :: _ => "Unable to generate summary."
       | _, _ => "No conversation to summarize."
       end.
Proof.
  intros Hsilent. split.
  - unfold analyze_sentiment. destruct (client self); [| reflexivity].
    match goal with |- context [chat_create e ?r] => specialize (Hsilent r) end.
    destruct (chat_create e _) as [[| message rest] | ex]; cbn in *; try reflexivity.
    unfold stripped_content. cbn. rewrite Hsilent. reflexivity.
  - unfold summarize_call. destruct (client self); [| reflexivity].
    destruct (conversation_history self) as [| first more]; [reflexivity |].
    match goal with |- context [chat_create e ?r] => specialize (Hsilent r) end.
    destruct (chat_create e _) as [[| message rest] | ex]; cbn in *; try reflexivity.
    unfold stripped_content. cbn. rewrite Hsilent. reflexivity.
Qed.





End FurtherClient.

(* ===================================================================== *)
(** ** Further properties: the system prompt and the custom prompts *)
(* ===================================================================== *)

Section FurtherContext.
Context `{PyRuntime}.

(** One weekday of a dict of hours: no line when the day is not named,
    one line when its value is a dict, and an [AttributeError] when its
    value is anything else. *)
Lemma format_day_of_dict (entries : pydict) (day : string) :
  match lookup_key entries day with
  | None => format_day (PyDict entries) day = Ok []
  | Some (PyDict _) => exists line, format_day (PyDict entries) day = Ok [line]
  | Some _ =>
      exists ex, format_day (PyDict entries) day = Raise ex /\ exn_class ex = AttributeError
  end.
Proof.
  unfold format_day. cbn. destruct (lookup_key entries day) as [v |]; cbn; [| reflexivity].
  destruct v as [| b | lexeme | s | items | day_hours]; cbn;
    try (eexists; split; reflexivity).
  destruct (truthy (get_default day_hours "closed" PyNone)); eexists; reflexivity.
Qed.

Lemma format_days_unnamed (entries : pydict) (ds : list string) :
  (forall day, In day ds -> lookup_key entries day = None) ->
  format_days (PyDict entries) ds = Ok [].
Proof.
  induction ds as [| day rest IH]; intros Hnone; cbn [format_days]; [reflexivity |].
  pose proof (format_day_of_dict entries day) as Hday.
  rewrite (Hnone day (or_introl eq_refl)) in Hday. rewrite Hday. cbn [bind].
  rewrite IH; [reflexivity |]. intros d Hd. apply Hnone. right. exact Hd.
Qed.

Lemma format_days_bad_value (entries : pydict) (ds : list string) (day : string) (v : pyval) :
  In day ds ->
  lookup_key entries day = Some v ->
  (forall day_hours, v <> PyDict day_hours) ->
  exists ex, format_days (PyDict entries) ds = Raise ex /\ exn_class ex = AttributeError.
Proof.
  intros Hin Hv Hshape.
  induction ds as [| d rest IH]; [destruct Hin |].
  cbn [format_days]. pose proof (format_day_of_dict entries d) as Hd.
  destruct (lookup_key entries d) as [value |] eqn:Hlook.
  - destruct value as [| b | lexeme | s | items | day_hours];
      try (destruct Hd as (ex & -> & Hclass); exists ex; split; [reflexivity | exact Hclass]).
    destruct Hd as [line ->]. cbn [bind].
    destruct Hin as [-> | Hin].
    + rewrite Hv in Hlook. injection Hlook as ->. exfalso. eapply Hshape. reflexivity.
    + destruct (IH Hin) as (ex & -> & Hclass). exists ex. split; [reflexivity | exact Hclass].
  - rewrite Hd. cbn [bind]. destruct Hin as [-> | Hin]; [congruence |].
    destruct (IH Hin) as (ex & -> & Hclass). exists ex. split; [reflexivity | exact Hclass].
Qed.

(** X6. Hours that are empty or null, and a dict of hours that names no
    weekday, are formatted as the default line, Monday to Friday nine
    to five. *)
Theorem hours_without_weekday_are_default (hours : pyval) :
  truthy hours = false
  \/ (exists entries, hours = PyDict entries
        /\ forall day, In day days -> lookup_key entries day = None) ->
  _format_hours hours = Ok "Monday-Friday: 9:00 AM - 5:00 PM".
Proof.
  intros [Hfalsy | (entries & -> & Hnone)]; unfold _format_hours.
  - rewrite Hfalsy. reflexivity.
  - destruct (negb (truthy (PyDict entries))); [reflexivity |].
    rewrite (format_days_unnamed entries days Hnone). reflexivity.
Qed.

(** X7. A dict of hours in which some weekday has a value that is not a
    dict cannot be formatted: [_format_hours] raises an
    [AttributeError]. *)
Theorem weekday_hours_must_be_a_dict (entries : pydict) (day : string) (v : pyval) :
  In day days ->
  lookup_key entries day = Some v ->
  (forall day_hours, v <> PyDict day_hours) ->
  exists ex, _format_hours (PyDict entries) = Raise ex /\ exn_class ex = AttributeError.
Proof.
  intros Hin Hv Hshape. unfold _format_hours.
  assert (Htruthy : truthy (PyDict entries) = true).
  { destruct entries; [discriminate Hv | reflexivity]. }
  rewrite Htruthy. cbn [negb].
  destruct (format_days_bad_value entries days day v Hin Hv Hshape) as (ex & -> & Hclass).
  exists ex. split; [reflexivity | exact Hclass].
Qed.

(** X8. A business context whose services are null has no system
    prompt: [build_system_prompt] raises. *)
Theorem null_services_break_the_prompt (business : pydict) :
  lookup_key business "services" = Some PyNone ->
  exists ex, build_system_prompt business = Raise ex.
Proof.
  intros Hnull. unfold build_system_prompt.
  destruct (_format_hours _) as [hours | ex]; cbn; [| exists ex; reflexivity].
  unfold get_default. rewrite Hnull. cbn. eexists. reflexivity.
Qed.

Lemma all_strs_of_strs (l : list string) : all_strs (map PyStr l) = Ok l.
Proof. induction l as [| s l IH]; cbn; [reflexivity |]. rewrite IH. reflexivity. Qed.

(** X9. When both list columns of a prompt hold JSON arrays of strs and
    the prompt collects information, its section names the trigger
    phrases and the fields to collect, each joined by a comma and a
    space in the order of the array. *)
Theorem decoded_lists_are_joined (p : Prompt.t) (phrases fields : string)
    (triggers wanted : list string) :
  Prompt.trigger_phrases p = Some phrases ->
  Prompt.fields_to_collect p = Some fields ->
  Prompt.requires_info_collection p = Some true ->
  json_loads phrases = Ok (PyList (map PyStr triggers)) ->
  json_loads fields = Ok (PyList (map PyStr wanted)) ->
  prompt_section (prompt_data_of p) =
    Ok ((nl +:+ "When caller mentions: " +:+ String.concat ", " triggers +:+ nl
         +:+ "Category: " +:+ py_str (of_option (Prompt.category p)) +:+ nl
         +:+ "Response: " +:+ Prompt.content p +:+ nl
         +:+ "Instructions: " +:+ py_str (of_option (Prompt.ai_instructions p)) +:+ nl)
        +:+ "Collect: " +:+ String.concat ", " wanted +:+ nl).
Proof.
  intros Hphrases Hfields Hrequires Hjson1 Hjson2.
  unfold prompt_section, prompt_data_of.
  rewrite Hphrases, Hfields, Hrequires.
  cbn [dict_of map fst snd get get_default lookup_key is_str String.eqb Ascii.eqb Bool.eqb
       of_option truthy].
  unfold decode_triggers, decode_fields. rewrite Hjson1, Hjson2.
  cbn [try_except py_join]. rewrite !all_strs_of_strs. reflexivity.
Qed.

(** X10. A prompt that does not collect information has the same
    section whatever its fields-to-collect column holds: the column is
    not read. *)
Theorem fields_are_read_only_when_collecting (p : Prompt.t) (other : option string) :
  Prompt.requires_info_collection p = None
  \/ Prompt.requires_info_collection p = Some false ->
  prompt_section
    (prompt_data_of
       {| Prompt.id := Prompt.id p;
          Prompt.business_id := Prompt.business_id p;
          Prompt.category := Prompt.category p;
          Prompt.trigger_phrases := Prompt.trigger_phrases p;
          Prompt.content := Prompt.content p;
          Prompt.ai_instructions := Prompt.ai_instructions p;
          Prompt.requires_info_collection := Prompt.requires_info_collection p;
          Prompt.fields_to_collect := other;
          Prompt.priority := Prompt.priority p;
          Prompt.is_active := Prompt.is_active p |})
  = prompt_section (prompt_data_of p).
Proof.
  intros Hoff. unfold prompt_section, prompt_data_of.
  cbn [Prompt.category Prompt.trigger_phrases Prompt.content Prompt.ai_instructions
       Prompt.requires_info_collection Prompt.fields_to_collect].
  destruct Hoff as [-> | ->];
    cbn [dict_of map fst snd get get_default lookup_key is_str String.eqb Ascii.eqb Bool.eqb
         truthy];
    destruct (py_join ", " _); reflexivity.
Qed.

(** X11. Adding prompts stores the heading followed by the sections
    under "custom_prompts" and leaves the system prompt built from the
    business fields as it was. *)
Theorem custom_prompts_extend_the_context (self self' : AIConversationHandler)
    (prompts : list pydict) :
  prompts <> [] ->
  add_prompts_to_context self prompts = Ok self' ->
  build_system_prompt (business_context self') = build_system_prompt (business_context self)
  /\ exists sections,
       prompt_sections prompts = Ok sections
       /\ get (business_context self') "custom_prompts"
          = PyStr (nl +:+ nl +:+ "CUSTOM PROMPTS AND RESPONSES:" +:+ nl +:+ sections).
Proof.
  intros Hsome. unfold add_prompts_to_context.
  destruct prompts as [| p rest]; [contradiction |].
  destruct (prompt_sections (p :: rest)) as [sections | ex]; cbn; [| discriminate].
  intros [= <-]. cbn [business_context]. split.
  - unfold build_system_prompt, get_default. rewrite !lookup_setitem. reflexivity.
  - exists sections. split; [reflexivity |].
    unfold get, get_default. rewrite lookup_setitem. reflexivity.
Qed.

End FurtherContext.

(* ===================================================================== *)
(** ** Further properties: the speech turn *)
(* ===================================================================== *)

Section FurtherTurns.
Context `{PyRuntime}.

Lemma keys_setitem (d : pydict) (k v : pyval) : keys d `prefix_of` keys (setitem d k v).
Proof.
  induction d as [| [k0 v0] rest IH]; cbn.
  - apply prefix_nil.
  - destruct (key_eq k0 k); cbn; [reflexivity |].
    apply prefix_cons. exact IH.
Qed.

Lemma keys_update_dict (d other : pydict) : keys d `prefix_of` keys (update_dict d other).
Proof.
  unfold update_dict. revert d.
  induction other as [| [k v] rest IH]; intros d; cbn; [reflexivity |].
  etransitivity; [apply (keys_setitem d k v) | apply IH].
Qed.

Lemma keys_update_pairs (d : pydict) (items : list pyval) :
  keys d `prefix_of` keys (fst (update_pairs d items)).
Proof.
  revert d. induction items as [| item rest IH]; intros d; cbn; [reflexivity |].
  destruct (pair_of item) as [[k v] | ex]; cbn; [| reflexivity].
  destruct (hashable k); cbn; [| reflexivity].
  etransitivity; [apply (keys_setitem d k v) | apply IH].
Qed.

(** [d.update(v)] keeps every key of [d], in place, whatever [v] is and
    whether or not it raises. *)
Lemma keys_dict_update (d : pydict) (v : pyval) :
  keys d `prefix_of` keys (fst (dict_update d v)).
Proof.
  destruct v as [| b | lexeme | s | items | other]; cbn; try reflexivity.
  - destruct (String.eqb s ""); reflexivity.
  - apply keys_update_pairs.
  - apply keys_update_dict.
Qed.

Lemma process_input_history_prefix (e : env) (self : AIConversationHandler)
    (user_input : string) (collected : pydict) :
  conversation_history self
    `prefix_of` conversation_history (snd (process_input e self user_input collected)).
Proof.
  unfold process_input. destruct (client self); cbn; [| reflexivity].
  destruct (build_messages _ collected) as [messages | ex]; cbn.
  - destruct (completion e messages); cbn.
    + rewrite <- app_assoc. apply prefix_app_r. reflexivity.
    + apply prefix_app_r. reflexivity.
  - apply prefix_app_r. reflexivity.
Qed.

Lemma continues_refl (c : conversation) : continues c c.
Proof. repeat split; reflexivity. Qed.

(** What the branch for [schedule_appointment] leaves registered. *)
Lemma schedule_keeps_registered (e : env) (CallSid : string) (c : conversation)
    (response : pydict) (w : world) :
  exists info,
    active_conversations (snd (schedule_appointment e CallSid c response w)) !! CallSid
      = Some (set_collected_info c info)
    /\ keys (collected_info c) `prefix_of` keys info.
Proof.
  unfold schedule_appointment.
  destruct (truthy (get response "action_data")).
  - pose proof (keys_dict_update (collected_info c) (get response "action_data")) as Hkeys.
    destruct (dict_update (collected_info c) (get response "action_data")) as [info raised].
    exists info. split; [| exact Hkeys].
    destruct raised; cbn; [apply lookup_insert_eq |].
    destruct (db_guard e SelectCall); cbn; [| apply lookup_insert_eq].
    destruct (scalar_one_or_none _) as [[call |] | ex]; cbn; try apply lookup_insert_eq.
    destruct (db_guard e CommitCall); cbn; apply lookup_insert_eq.
  - exists (collected_info c). split; [| reflexivity].
    cbn. destruct (db_guard e SelectCall); cbn; [| apply lookup_insert_eq].
    destruct (scalar_one_or_none _) as [[call |] | ex]; cbn; try apply lookup_insert_eq.
    destruct (db_guard e CommitCall); cbn; apply lookup_insert_eq.
Qed.

(** X12. A speech turn never drops or rewinds the state of its call.
    Whatever the text, the model and the store do, and whether the
    webhook returns or raises, the identifier is still registered
    afterwards, for the same call record and business, and its
    transcript, its history and the keys of its collected fields start
    with what they were. *)
Theorem speech_turn_continues_the_call (e : env) (CallSid : string)
    (SpeechResult : option string) (w : world) (c : conversation) :
  active_conversations w !! CallSid = Some c ->
  exists c',
    active_conversations (snd (handle_speech_input e CallSid SpeechResult w)) !! CallSid
      = Some c'
    /\ continues c c'.
Proof.
  intros Hlive.
  destruct SpeechResult as [speech |];
    [destruct (String.eqb speech "") eqn:Hempty |].
  - unfold handle_speech_input. rewrite Hlive, Hempty. cbn.
    exists c. split; [exact Hlive | apply continues_refl].
  - apply String.eqb_neq in Hempty.
    rewrite (speech_turn_steps e CallSid speech w c Hlive Hempty). cbn zeta.
    pose proof (process_input_history_prefix e (ai_handler c) speech (collected_info c))
      as Hhistory.
    destruct (process_input e (ai_handler c) speech (collected_info c))
      as [[response | ex] h]; cbn [fst snd] in *.
    + set (answered := set_transcript _ _).
      assert (Hanswered : continues c answered).
      { repeat split; cbn; try reflexivity; try exact Hhistory.
        rewrite <- app_assoc. apply prefix_app_r. reflexivity. }
      assert (Hstays : exists c',
                 active_conversations (set_conversation w CallSid answered) !! CallSid
                   = Some c'
                 /\ continues c c').
      { exists answered. split; [apply lookup_insert_eq | exact Hanswered]. }
      destruct (is_str (get response "action") "schedule_appointment").
      * destruct (schedule_keeps_registered e CallSid answered response
                    (set_conversation w CallSid answered)) as (info & Hreg & Hkeys).
        exists (set_collected_info answered info). split; [exact Hreg |].
        destruct Hanswered as (Hid & Hbiz & Hlines & Hhist & Hk).
        unfold continues. cbn. split; [exact Hid |]. split; [exact Hbiz |].
        split; [exact Hlines |]. split; [exact Hhist |].
        etransitivity; [exact Hk | exact Hkeys].
      * destruct (is_str (get response "action") "transfer_call").
        -- destruct (db_guard e SelectBusinessById); cbn; [| exact Hstays].
           destruct (scalar_one_or_none _) as [[business |] | ex]; cbn; try exact Hstays.
           destruct (Business.phone_number business) as [number |]; [| exact Hstays].
           destruct (String.eqb number ""); exact Hstays.
        -- destruct (is_str (get response "action") "end_call"); exact Hstays.
    + eexists. split; [apply lookup_insert_eq |].
      repeat split; cbn; try reflexivity; try exact Hhistory.
      apply prefix_app_r. reflexivity.
  - unfold handle_speech_input. rewrite Hlive. cbn.
    exists c. split; [exact Hlive | apply continues_refl].
Qed.

End FurtherTurns.

(* ===================================================================== *)
(** ** Further properties: what a turn answers *)
(* ===================================================================== *)

Section FurtherReplies.
Context `{PyRuntime}.


(** The reply to a function call is never empty when the function is
    one of the three on offer. *)
Lemma call_reply_is_spoken (text : option string) (generated : string) :
  generated <> "" ->
  truthy (PyStr match text with
                | Some t => if String.eqb t "" then generated else t
                | None => generated
                end) = true.
Proof.
  intros Hgen. cbn.
  destruct text as [t |]; [destruct (String.eqb t "") eqn:Ht |];
    rewrite ?Ht, ?(eqb_empty_false _ Hgen); reflexivity.
Qed.


(** X14. When the model calls [transfer_call], the caller is dialled
    through to the phone number of the business after the reply is
    said; when the business has no phone number the turn is answered
    like a plain reply, with a gather. Either way the store is not
    written and the call stays registered. *)
Theorem transfer_needs_a_number (e : env) (CallSid speech key arguments : string)
    (w : world) (c : conversation) (messages : list pydict) (text : option string)
    (rest : list chat_message) (data : pyval) (business : Business.t) :
  active_conversations w !! CallSid = Some c ->
  speech <> "" ->
  client (ai_handler c) = Some key ->
  build_messages (append_history (ai_handler c) (chat_entry "user" (PyStr speech)))
    (collected_info c) = Ok messages ->
  chat_create e (turn_request messages)
    = Ok (ChatMessage text (Some (FunctionCall "transfer_call" arguments)) :: rest) ->
  json_loads arguments = Ok data ->
  db_fault e SelectBusinessById = None ->
  select_business_by_id (db w) (business_id c) = [business] ->
  let reply :=
    match text with
    | Some t =>
        if String.eqb t "" then "I'll transfer you to one of our staff members now. Please hold."
        else t
    | None => "I'll transfer you to one of our staff members now. Please hold."
    end in
  exists w',
    handle_speech_input e CallSid (Some speech) w =
      (Ok (Response
             match Business.phone_number business with
             | Some (String a number) =>
                 [Say (PyStr reply) "Polly.Joanna"; Dial (String a number)]
             | _ =>
                 [Gather "speech" "/api/webhooks/twilio/handle-input" "POST" "auto" "en-US"
                    [Say (PyStr reply) "Polly.Joanna"];
                  Say (PyStr "Are you still there?") "Polly.Joanna";
                  Redirect "/api/webhooks/twilio/voice"]
             end
             "application/xml"),
       w')
    /\ db w' = db w
    /\ is_Some (active_conversations w' !! CallSid).
Proof.
  intros Hlive Hspeech Hclient Hmsgs Hcreate Hargs Hquery Hone. cbn zeta.
  rewrite (speech_turn_steps e CallSid speech w c Hlive Hspeech).
  rewrite (process_input_call_reply e _ speech key "transfer_call" arguments
             "I'll transfer you to one of our staff members now. Please hold."
             _ messages text rest data Hclient Hmsgs Hcreate Hargs eq_refl).
  cbn -[truthy]. unfold db_guard. rewrite Hquery. cbn -[truthy]. rewrite Hone. cbn -[truthy].
  unfold transfer_call.
  rewrite (call_reply_is_spoken text
             "I'll transfer you to one of our staff members now. Please hold.")
    by discriminate.
  destruct (Business.phone_number business) as [[| a number] |]; cbn;
    (eexists; split; [reflexivity |];
     split; [reflexivity | cbn; rewrite lookup_insert_eq; eexists; reflexivity]).
Qed.

(** X15. When the model calls [end_call], the reply is said and the
    document hangs up; the store is not written, and the call stays
    registered until its status event arrives. *)
Theorem end_call_hangs_up (e : env) (CallSid speech key arguments : string)
    (w : world) (c : conversation) (messages : list pydict) (text : option string)
    (rest : list chat_message) (data : pyval) :
  active_conversations w !! CallSid = Some c ->
  speech <> "" ->
  client (ai_handler c) = Some key ->
  build_messages (append_history (ai_handler c) (chat_entry "user" (PyStr speech)))
    (collected_info c) = Ok messages ->
  chat_create e (turn_request messages)
    = Ok (ChatMessage text (Some (FunctionCall "end_call" arguments)) :: rest) ->
  json_loads arguments = Ok data ->
  let reply :=
    match text with
    | Some t => if String.eqb t "" then "Thank you for calling! Have a great day." else t
    | None => "Thank you for calling! Have a great day."
    end in
  exists w',
    handle_speech_input e CallSid (Some speech) w =
      (Ok (Response [Say (PyStr reply) "Polly.Joanna"; Hangup] "application/xml"), w')
    /\ db w' = db w
    /\ is_Some (active_conversations w' !! CallSid).
Proof.
  intros Hlive Hspeech Hclient Hmsgs Hcreate Hargs. cbn zeta.
  rewrite (speech_turn_steps e CallSid speech w c Hlive Hspeech).
  rewrite (process_input_call_reply e _ speech key "end_call" arguments
             "Thank you for calling! Have a great day."
             _ messages text rest data Hclient Hmsgs Hcreate Hargs eq_refl).
  cbn. eexists. split; [reflexivity |].
  split; [reflexivity | cbn; rewrite lookup_insert_eq; eexists; reflexivity].
Qed.

(** X16. A call whose handler has no client is answered on every turn
    by a gather that says the technical-difficulties reply. The state
    registered for the call afterwards has the handler it had, history
    included, and the collected fields it had; its transcript has taken
    the caller line and the reply; and the store is not written. *)
Theorem unconfigured_turn (e : env) (CallSid speech : string) (w : world) (c : conversation) :
  active_conversations w !! CallSid = Some c ->
  speech <> "" ->
  client (ai_handler c) = None ->
  exists c',
    handle_speech_input e CallSid (Some speech) w =
      (Ok (Response
             [Gather "speech" "/api/webhooks/twilio/handle-input" "POST" "auto" "en-US"
                [Say (PyStr "I apologize, but I'm having technical difficulties. Please hold while I transfer you to our staff.")
                     "Polly.Joanna"];
              Say (PyStr "Are you still there?") "Polly.Joanna";
              Redirect "/api/webhooks/twilio/voice"]
             "application/xml"),
       set_conversation w CallSid c')
    /\ active_conversations (snd (handle_speech_input e CallSid (Some speech) w)) !! CallSid
       = Some c'
    /\ db (snd (handle_speech_input e CallSid (Some speech) w)) = db w
    /\ ai_handler c' = ai_handler c
    /\ collected_info c' = collected_info c
    /\ transcript c'
       = (transcript c
          ++ ["Caller: " +:+ speech;
              "AI: I apologize, but I'm having technical difficulties. Please hold while I transfer you to our staff."])%list.
Proof.
  intros Hlive Hspeech Hclient.
  rewrite (speech_turn_steps e CallSid speech w c Hlive Hspeech).
  rewrite (process_input_unconfigured e _ speech _ Hclient).
  cbn. eexists. split; [reflexivity |].
  split; [apply lookup_insert_eq |]. cbn.
  rewrite <- !app_assoc. repeat split.
Qed.


End FurtherReplies.

(* ===================================================================== *)
(** ** Further properties: the call start *)
(* ===================================================================== *)

Section FurtherStart.
Context `{PyRuntime}.
Variable OPENAI_API_KEY : option string.

(** No key of the table exceeds the one before the next. *)
Lemma call_ids_are_bounded (rows : gmap Z Call.t) :
  forall id, is_Some (rows !! id) -> id < next_call_id rows.
Proof.
  unfold next_call_id.
  apply (map_fold_weak_ind
           (fun (r : Z) (m : gmap Z Call.t) => forall id, is_Some (m !! id) -> id < 1 + r)).
  - intros id [row Hrow]. rewrite lookup_empty in Hrow. discriminate.
  - intros i x m r Hfresh IH id Hid.
    destruct (decide (i = id)) as [-> | Hne].
    + lia.
    + rewrite lookup_insert_ne in Hid by exact Hne. specialize (IH id Hid). lia.
Qed.

Lemma next_call_id_is_fresh (rows : gmap Z Call.t) : rows !! next_call_id rows = None.
Proof.
  destruct (rows !! next_call_id rows) as [row |] eqn:Hrow; [| reflexivity].
  pose proof (call_ids_are_bounded rows (next_call_id rows) (ex_intro _ row Hrow)). lia.
Qed.

(** X18. A call start for a matched business, when the store answers
    and the prompts assemble, returns the greeting of the business
    inside a gather, in the Polly voice of the business, followed by
    the re-prompt and the redirect to the call start. It commits a new
    record in progress with the identifier and the two numbers, and no
    record that existed is overwritten. *)
Theorem call_start_greets_and_records (e : env) (CallSid : string) (From To : option string)
    (w : world) (business : Business.t) (handler : AIConversationHandler) :
  select_business_by_number (db w) To = [business] ->
  (forall op, db_fault e op = None) ->
  add_prompts_to_context
    (new_handler OPENAI_API_KEY (business_context_of business))
    (map prompt_data_of (select_prompts (db w) (Business.id business))) = Ok handler ->
  exists (w' : world) (row : Call.t),
    handle_incoming_call OPENAI_API_KEY e CallSid From To w =
      (Ok (Response
             [Gather "speech" "/api/webhooks/twilio/handle-input" "POST" "auto" "en-US"
                [Say (of_option (Business.greeting_message business))
                     (polly_voice (Business.ai_voice business))];
              Say (PyStr "I didn't catch that. How may I help you?")
                  (polly_voice (Business.ai_voice business));
              Redirect "/api/webhooks/twilio/voice"]
             "application/xml"),
       w')
    /\ calls (db w') !! next_call_id (calls (db w)) = Some row
    /\ Call.status row = IN_PROGRESS
    /\ Call.twilio_call_sid row = Some CallSid
    /\ Call.caller_number row = From
    /\ Call.called_number row = To
    /\ Call.business_id row = Business.id business
    /\ (forall id old, calls (db w) !! id = Some old -> calls (db w') !! id = Some old).
Proof.
  intros Hone Hquiet Hadd.
  rewrite (incoming_call_registers OPENAI_API_KEY e CallSid From To w business handler
             Hone Hquiet Hadd).
  eexists. eexists. split; [reflexivity |]. cbn.
  split; [apply lookup_insert_eq |]. repeat split.
  intros id old Hold. rewrite lookup_insert_ne; [exact Hold |].
  intros Heq. rewrite <- Heq, next_call_id_is_fresh in Hold. discriminate.
Qed.

(** X19. A call start for a business that has an active prompt without
    trigger phrases, first in priority order, raises a [TypeError]
    while the prompts are assembled. The call record is committed by
    then, and no state is registered for the call. *)
Theorem null_trigger_phrases_fail_the_call_start (e : env) (CallSid : string)
    (From To : option string) (w : world) (business : Business.t) (p : Prompt.t)
    (rest : list Prompt.t) :
  select_business_by_number (db w) To = [business] ->
  (forall op, db_fault e op = None) ->
  select_prompts (db w) (Business.id business) = p :: rest ->
  Prompt.trigger_phrases p = None ->
  exists (ex : exn) (w' : world),
    handle_incoming_call OPENAI_API_KEY e CallSid From To w = (Raise ex, w')
    /\ exn_class ex = TypeError
    /\ active_conversations w' = active_conversations w
    /\ calls (db w') !! next_call_id (calls (db w))
       = Some (new_call (db w) business CallSid From To).
Proof.
  intros Hone Hquiet Hfirst Hnull. unfold handle_incoming_call, db_guard.
  rewrite !Hquiet. cbn. rewrite Hone. cbn.
  unfold select_prompts in Hfirst. cbn in Hfirst. rewrite Hfirst.
  unfold add_prompts_to_context. cbn [map].
  assert (Hsection : prompt_section (prompt_data_of p)
                     = Raise (Exn TypeError "can only join an iterable")).
  { unfold prompt_section, prompt_data_of. rewrite Hnull. reflexivity. }
  cbn [prompt_sections]. rewrite Hsection. cbn.
  eexists. eexists. split; [reflexivity |]. cbn.
  repeat split. apply lookup_insert_eq.
Qed.

(** X20. When more than one business has the called number, the call
    start raises and changes nothing: no record, no state. *)
Theorem shared_number_fails_the_call_start (e : env) (CallSid : string)
    (From To : option string) (w : world) (first second : Business.t)
    (others : list Business.t) :
  db_fault e SelectBusinessByNumber = None ->
  select_business_by_number (db w) To = first :: second :: others ->
  exists ex,
    handle_incoming_call OPENAI_API_KEY e CallSid From To w = (Raise ex, w)
    /\ exn_class ex = MultipleResultsFound.
Proof.
  intros Hquery Hmany. unfold handle_incoming_call, db_guard.
  rewrite Hquery. cbn. rewrite Hmany. cbn. eexists. split; reflexivity.
Qed.

End FurtherStart.

(* ===================================================================== *)
(** ** Further properties: the status event and the whole call *)
(* ===================================================================== *)

Section FurtherStatus.
Context `{PyRuntime}.

(** The record a status event commits, and the world it leaves, when
    the call is registered, its record is found and the store answers. *)
Lemma call_status_commits (e : env) (CallSid status : string) (duration : option Z)
    (w : world) (c : conversation) (call : Call.t) :
  active_conversations w !! CallSid = Some c ->
  calls (db w) !! call_id c = Some call ->
  db_fault e SelectCall = None ->
  db_fault e CommitCall = None ->
  handle_call_status e CallSid status duration w =
    (Ok acknowledgement,
     del_conversation
       (commit_call w
          {| Call.id := Call.id call;
             Call.business_id := Call.business_id call;
             Call.twilio_call_sid := Call.twilio_call_sid call;
             Call.caller_number := Call.caller_number call;
             Call.called_number := Call.called_number call;
             Call.status := status_map_get (str_lower status);
             Call.duration_seconds := match duration with Some n => n | None => 0 end;
             Call.transcript := Some (String.concat nl (transcript c));
             Call.call_summary := Some (summarize_call e (ai_handler c));
             Call.sentiment :=
               if String.eqb (String.concat nl (transcript c)) "" then Call.sentiment call
               else
                 match map (str_remove "Caller: ")
                           (filter (String.prefix "Caller:") (transcript c)) with
                 | [] => Call.sentiment call
                 | said =>
                     Some (analyze_sentiment e (ai_handler c) (String.concat " " said))
                 end;
             Call.collected_info := Call.collected_info call;
             Call.action_taken := Call.action_taken call;
             Call.action_details := Call.action_details call |})
       CallSid).
Proof.
  intros Hlive Hcall Hselect Hcommit.
  unfold handle_call_status, db_guard, select_call.
  rewrite Hlive, Hselect. cbn -[str_remove]. rewrite Hcall. cbn -[str_remove].
  rewrite Hcommit. cbn -[str_remove].
  destruct (map _ _); reflexivity.
Qed.

(** X21. The final reconciliation rewrites the status, the duration,
    the transcript, the summary and possibly the sentiment of the call
    record, and nothing else: the collected information, the action
    taken and its details, and the identifying columns are those the
    record had. *)
Theorem status_keeps_the_appointment (e : env) (CallSid status : string)
    (duration : option Z) (w : world) (c : conversation) (call : Call.t) :
  active_conversations w !! CallSid = Some c ->
  calls (db w) !! call_id c = Some call ->
  db_fault e SelectCall = None ->
  db_fault e CommitCall = None ->
  exists (w' : world) (final : Call.t),
    handle_call_status e CallSid status duration w = (Ok acknowledgement, w')
    /\ calls (db w') !! Call.id call = Some final
    /\ Call.collected_info final = Call.collected_info call
    /\ Call.action_taken final = Call.action_taken call
    /\ Call.action_details final = Call.action_details call
    /\ Call.id final = Call.id call
    /\ Call.business_id final = Call.business_id call
    /\ Call.twilio_call_sid final = Call.twilio_call_sid call
    /\ Call.caller_number final = Call.caller_number call
    /\ Call.called_number final = Call.called_number call.
Proof.
  intros Hlive Hcall Hselect Hcommit.
  rewrite (call_status_commits e CallSid status duration w c call Hlive Hcall Hselect Hcommit).
  eexists. eexists. split; [reflexivity |].
  split; [cbn; apply lookup_insert_eq |]. repeat split.
Qed.

(** X22. A status event for a registered call whose record is no longer
    in the store evicts the state and writes nothing: afterwards no
    state is registered for the identifier and the store is as it
    was. *)
Theorem status_without_record_only_evicts (e : env) (CallSid status : string)
    (duration : option Z) (w : world) (c : conversation) :
  active_conversations w !! CallSid = Some c ->
  calls (db w) !! call_id c = None ->
  db_fault e SelectCall = None ->
  handle_call_status e CallSid status duration w
    = (Ok acknowledgement, del_conversation w CallSid)
  /\ active_conversations (snd (handle_call_status e CallSid status duration w)) !! CallSid
     = None
  /\ db (snd (handle_call_status e CallSid status duration w)) = db w.
Proof.
  intros Hlive Hgone Hselect. unfold handle_call_status, db_guard, select_call.
  rewrite Hlive, Hselect. cbn. rewrite Hgone. cbn.
  split; [reflexivity |]. split; [apply lookup_delete_eq | reflexivity].
Qed.

(** An utterance without the marker is left whole by its removal. *)
Lemma remove_all_absent (old s : string) (fuel : nat) :
  occurs old s = false -> remove_all fuel old s = s.
Proof.
  revert fuel. induction s as [| ch rest IH]; intros fuel Hfree.
  - destruct fuel; reflexivity.
  - destruct fuel as [| fuel]; [reflexivity |].
    cbn [occurs] in Hfree. apply orb_false_iff in Hfree. destruct Hfree as [Hhere Hlater].
    cbn [remove_all]. rewrite Hhere. rewrite (IH fuel Hlater). reflexivity.
Qed.

Lemma prefix_append (old s : string) : String.prefix old (old +:+ s) = true.
Proof.
  induction old as [| a old IH].
  - change ("" +:+ s) with s. destruct s; reflexivity.
  - change (String a old +:+ s) with (String a (old +:+ s)). cbn [String.prefix].
    destruct (ascii_dec a a); [exact IH | contradiction].
Qed.

Lemma drop_append (old s : string) : str_drop (String.length old) (old +:+ s) = s.
Proof.
  induction old as [| a old IH]; [reflexivity |].
  change (String a old +:+ s) with (String a (old +:+ s)). exact IH.
Qed.

Lemma remove_marker (old s : string) :
  old <> "" -> occurs old s = false -> str_remove old (old +:+ s) = s.
Proof.
  intros Hold Hfree. destruct old as [| a o]; [contradiction |].
  unfold str_remove. change (String a o +:+ s) with (String a (o +:+ s)).
  change (String.length (String a (o +:+ s))) with (S (String.length (o +:+ s))).
  cbn [remove_all].
  change (String a (o +:+ s)) with (String a o +:+ s).
  rewrite prefix_append, drop_append. apply remove_all_absent. exact Hfree.
Qed.

Lemma caller_line_gives_utterance (said : string) :
  occurs "Caller: " said = false ->
  str_remove "Caller: " ("Caller: " +:+ said) = said.
Proof.
  intros Hfree. apply remove_marker; [discriminate | exact Hfree].
Qed.

(** The lines of the caller in a transcript of exchanges are one per
    exchange, and they give back the utterances. *)
Lemma caller_messages_of_exchanges (exchanges : list (string * string)) :
  Forall (fun ex => occurs "Caller: " (fst ex) = false) exchanges ->
  map (str_remove "Caller: ") (filter (String.prefix "Caller:") (exchange_lines exchanges))
    = map fst exchanges.
Proof.
  induction exchanges as [| [said reply] rest IH]; intros Hfree; [reflexivity |].
  apply Forall_cons in Hfree. destruct Hfree as [Hhead Htail].
  unfold exchange_lines in *. cbn [flat_map app fst snd].
  rewrite filter_cons_True by reflexivity.
  rewrite filter_cons_False by (cbn; auto).
  cbn [map fst]. rewrite (caller_line_gives_utterance said Hhead), (IH Htail). reflexivity.
Qed.

Lemma concat_lines_not_empty (first : string) (more : list string) :
  first <> "" -> String.concat nl (first :: more) <> "".
Proof.
  intros Hfirst. destruct first as [| ch tail]; [contradiction |].
  destruct more; cbn; discriminate.
Qed.

(** X23. At the status event of a call whose transcript is made of
    completed exchanges, none of whose utterances contains "Caller: ",
    the sentiment stored is the sentiment of the utterances of the
    caller joined by spaces, in order; the replies take no part. With
    no exchange at all the sentiment of the record is left as it is. *)
Theorem sentiment_reads_the_utterances (e : env) (CallSid status : string)
    (duration : option Z) (w : world) (c : conversation) (call : Call.t)
    (exchanges : list (string * string)) :
  active_conversations w !! CallSid = Some c ->
  calls (db w) !! call_id c = Some call ->
  db_fault e SelectCall = None ->
  db_fault e CommitCall = None ->
  transcript c = exchange_lines exchanges ->
  Forall (fun ex => occurs "Caller: " (fst ex) = false) exchanges ->
  exists (w' : world) (final : Call.t),
    handle_call_status e CallSid status duration w = (Ok acknowledgement, w')
    /\ calls (db w') !! Call.id call = Some final
    /\ Call.sentiment final =
         match exchanges with
         | [] => Call.sentiment call
         | _ => Some (analyze_sentiment e (ai_handler c)
                        (String.concat " " (map fst exchanges)))
         end.
Proof.
  intros Hlive Hcall Hselect Hcommit Hlines Hfree.
  rewrite (call_status_commits e CallSid status duration w c call Hlive Hcall Hselect Hcommit).
  eexists. eexists. split; [reflexivity |].
  split; [cbn; apply lookup_insert_eq |].
  cbn [Call.sentiment]. rewrite Hlines, (caller_messages_of_exchanges exchanges Hfree).
  destruct exchanges as [| [said reply] rest]; [reflexivity |].
  rewrite (eqb_empty_false (String.concat nl (exchange_lines ((said, reply) :: rest)))).
  - reflexivity.
  - unfold exchange_lines. cbn [flat_map app fst]. apply concat_lines_not_empty. discriminate.
Qed.

End FurtherStatus.

(* ===================================================================== *)
(** ** Further properties: what the webhooks leave alone *)
(* ===================================================================== *)

Section FurtherFrames.
Context `{PyRuntime}.
Variable OPENAI_API_KEY : option string.

(** The store after the branch for [schedule_appointment]: as it was,
    or with the record of the call rewritten in its three appointment
    columns. *)
Lemma schedule_store (e : env) (CallSid : string) (c : conversation) (response : pydict)
    (w : world) :
  db (snd (schedule_appointment e CallSid c response w)) = db w
  \/ exists (row : Call.t) (info details : pyval) (action : option string),
       calls (db w) !! call_id c = Some row
       /\ db (snd (schedule_appointment e CallSid c response w)) =
            store_call (db w)
              {| Call.id := Call.id row;
                 Call.business_id := Call.business_id row;
                 Call.twilio_call_sid := Call.twilio_call_sid row;
                 Call.caller_number := Call.caller_number row;
                 Call.called_number := Call.called_number row;
                 Call.status := Call.status row;
                 Call.duration_seconds := Call.duration_seconds row;
                 Call.transcript := Call.transcript row;
                 Call.call_summary := Call.call_summary row;
                 Call.sentiment := Call.sentiment row;
                 Call.collected_info := info;
                 Call.action_taken := action;
                 Call.action_details := details |}.
Proof.
  unfold schedule_appointment, db_guard, select_call.
  destruct (if truthy (get response "action_data")
            then dict_update (collected_info c) (get response "action_data")
            else (collected_info c, None)) as [info [ex |]]; cbn; [left; reflexivity |].
  destruct (db_fault e SelectCall); cbn; [left; reflexivity |].
  destruct (calls (db w) !! call_id c) as [row |] eqn:Hrow; cbn; [| left; reflexivity].
  destruct (db_fault e CommitCall); cbn; [left; reflexivity |].
  right. eexists. eexists. eexists. eexists. split; reflexivity.
Qed.

(** X24. A speech turn writes the store through the record of its call
    only, and there through the collected information, the action
    taken and its details only: the status, the duration, the
    transcript, the summary, the sentiment and the identifying columns
    of the record, and every business and prompt, are left as they
    are. *)
Theorem speech_turn_writes_only_the_appointment (e : env) (CallSid : string)
    (SpeechResult : option string) (w : world) (c : conversation) :
  active_conversations w !! CallSid = Some c ->
  let after := db (snd (handle_speech_input e CallSid SpeechResult w)) in
  after = db w
  \/ exists (row : Call.t) (info details : pyval) (action : option string),
       calls (db w) !! call_id c = Some row
       /\ after =
            store_call (db w)
              {| Call.id := Call.id row;
                 Call.business_id := Call.business_id row;
                 Call.twilio_call_sid := Call.twilio_call_sid row;
                 Call.caller_number := Call.caller_number row;
                 Call.called_number := Call.called_number row;
                 Call.status := Call.status row;
                 Call.duration_seconds := Call.duration_seconds row;
                 Call.transcript := Call.transcript row;
                 Call.call_summary := Call.call_summary row;
                 Call.sentiment := Call.sentiment row;
                 Call.collected_info := info;
                 Call.action_taken := action;
                 Call.action_details := details |}.
Proof.
  intros Hlive. cbn zeta.
  destruct SpeechResult as [speech |];
    [destruct (String.eqb speech "") eqn:Hempty |].
  - left. unfold handle_speech_input. rewrite Hlive, Hempty. reflexivity.
  - apply String.eqb_neq in Hempty.
    rewrite (speech_turn_steps e CallSid speech w c Hlive Hempty). cbn zeta.
    destruct (process_input e (ai_handler c) speech (collected_info c))
      as [[response | ex] h]; cbn [fst snd]; [| left; reflexivity].
    destruct (is_str (get response "action") "schedule_appointment").
    + match goal with
      | |- context [schedule_appointment e CallSid ?c2 response ?w2] =>
          destruct (schedule_store e CallSid c2 response w2) as [Hsame | Hrow]
      end.
      * left. exact Hsame.
      * right. exact Hrow.
    + left. destruct (is_str (get response "action") "transfer_call").
      * destruct (db_guard e SelectBusinessById); cbn; [| reflexivity].
        destruct (scalar_one_or_none _) as [[business |] | ex]; cbn; try reflexivity.
        destruct (Business.phone_number business) as [number |]; [| reflexivity].
        destruct (String.eqb number ""); reflexivity.
      * destruct (is_str (get response "action") "end_call"); reflexivity.
  - left. unfold handle_speech_input. rewrite Hlive. reflexivity.
Qed.

Lemma schedule_registry_others (e : env) (CallSid other : string) (c : conversation)
    (response : pydict) (w : world) :
  other <> CallSid ->
  active_conversations (snd (schedule_appointment e CallSid c response w)) !! other
    = active_conversations w !! other.
Proof.
  intros Hother. unfold schedule_appointment.
  destruct (if truthy (get response "action_data")
            then dict_update (collected_info c) (get response "action_data")
            else (collected_info c, None)) as [info [ex |]]; cbn;
    [apply lookup_insert_ne; congruence |].
  destruct (db_guard e SelectCall); cbn; [| apply lookup_insert_ne; congruence].
  destruct (scalar_one_or_none _) as [[call |] | ex]; cbn;
    try (apply lookup_insert_ne; congruence).
  destruct (db_guard e CommitCall); cbn; apply lookup_insert_ne; congruence.
Qed.

(** X25. A webhook touches no state but that of its own call: for every
    other identifier the registry holds after a call start, a speech
    turn or a status event what it held before, whether the webhook
    returned or raised. *)
Theorem webhooks_keep_other_calls (e : env) (CallSid other : string) (w : world)
    (From To SpeechResult : option string) (status : string) (duration : option Z) :
  other <> CallSid ->
  active_conversations (snd (handle_incoming_call OPENAI_API_KEY e CallSid From To w)) !! other
    = active_conversations w !! other
  /\ active_conversations (snd (handle_speech_input e CallSid SpeechResult w)) !! other
     = active_conversations w !! other
  /\ active_conversations (snd (handle_call_status e CallSid status duration w)) !! other
     = active_conversations w !! other.
Proof.
  intros Hother.
  assert (Hne : CallSid <> other) by congruence.
  split; [| split].
  - unfold handle_incoming_call.
    destruct (db_guard e SelectBusinessByNumber); cbn; [| reflexivity].
    destruct (scalar_one_or_none _) as [[business |] | ex]; cbn; try reflexivity.
    destruct (db_guard e CommitNewCall); cbn; [| reflexivity].
    destruct (db_guard e RefreshCall); cbn; [| reflexivity].
    destruct (db_guard e SelectPrompts); cbn; [| reflexivity].
    destruct (add_prompts_to_context _ _); cbn; [| reflexivity].
    apply lookup_insert_ne. exact Hne.
  - destruct (active_conversations w !! CallSid) as [c |] eqn:Hlive;
      [| unfold handle_speech_input; rewrite Hlive; reflexivity].
    destruct SpeechResult as [speech |];
      [destruct (String.eqb speech "") eqn:Hempty |];
      try (unfold handle_speech_input; rewrite Hlive, ?Hempty; reflexivity).
    apply String.eqb_neq in Hempty.
    rewrite (speech_turn_steps e CallSid speech w c Hlive Hempty). cbn zeta.
    destruct (process_input e (ai_handler c) speech (collected_info c))
      as [[response | ex] h]; cbn [fst snd]; [| apply lookup_insert_ne; exact Hne].
    destruct (is_str (get response "action") "schedule_appointment").
    + rewrite schedule_registry_others by exact Hother.
      apply lookup_insert_ne. exact Hne.
    + destruct (is_str (get response "action") "transfer_call").
      * destruct (db_guard e SelectBusinessById); cbn;
          [| apply lookup_insert_ne; exact Hne].
        destruct (scalar_one_or_none _) as [[business |] | ex]; cbn;
          try (apply lookup_insert_ne; exact Hne).
        destruct (Business.phone_number business) as [number |];
          [| apply lookup_insert_ne; exact Hne].
        destruct (String.eqb number ""); apply lookup_insert_ne; exact Hne.
      * destruct (is_str (get response "action") "end_call");
          apply lookup_insert_ne; exact Hne.
  - unfold handle_call_status.
    destruct (active_conversations w !! CallSid) as [c |]; [| reflexivity].
    destruct (db_guard e SelectCall); cbn; [| reflexivity].
    destruct (scalar_one_or_none _) as [[call |] | ex]; cbn; try reflexivity.
    + destruct (db_guard e CommitCall); cbn; [| reflexivity].
      apply lookup_delete_ne. exact Hne.
    + apply lookup_delete_ne. exact Hne.
Qed.

(** X26. An appointment scheduled during the call is still on the
    record after the call ends. When the record of the call is stored
    under its own key, a scheduling turn followed by the status event
    leaves a record that has the action "appointment_scheduled" and the
    fields as details; its collected information holds, under every
    key, the last value the fields give the key and else what was
    collected before; it has the final status, and a transcript that
    ends with the utterance and with the reply of the turn, which is
    the content of the model when it has one and else the sentence
    made from the fields. No state is registered for the call any
    more. *)
Theorem appointment_survives_the_hang_up (e e2 : env)
    (CallSid speech key arguments status : string) (duration : option Z) (w : world)
    (c : conversation) (messages : list pydict) (text : option string)
    (rest : list chat_message) (fields : pydict) (call : Call.t) :
  active_conversations w !! CallSid = Some c ->
  speech <> "" ->
  client (ai_handler c) = Some key ->
  build_messages (append_history (ai_handler c) (chat_entry "user" (PyStr speech)))
    (collected_info c) = Ok messages ->
  chat_create e (turn_request messages)
    = Ok (ChatMessage text (Some (FunctionCall "schedule_appointment" arguments)) :: rest) ->
  json_loads arguments = Ok (PyDict fields) ->
  calls (db w) !! call_id c = Some call ->
  Call.id call = call_id c ->
  db_fault e SelectCall = None ->
  db_fault e CommitCall = None ->
  db_fault e2 SelectCall = None ->
  db_fault e2 CommitCall = None ->
  let generated :=
    "I've scheduled your appointment for " +:+ py_str (get fields "preferred_date") +:+ " at "
    +:+ py_str (get fields "preferred_time") +:+ ". We'll see you then, "
    +:+ py_str (get fields "patient_name") +:+ "!" in
  let reply :=
    match text with
    | Some t => if String.eqb t "" then generated else t
    | None => generated
    end in
  exists (w2 : world) (final : Call.t) (info : pydict),
    handle_call_status e2 CallSid status duration
      (snd (handle_speech_input e CallSid (Some speech) w)) = (Ok acknowledgement, w2)
    /\ active_conversations w2 !! CallSid = None
    /\ calls (db w2) !! call_id c = Some final
    /\ Call.action_taken final = Some "appointment_scheduled"
    /\ Call.action_details final = PyDict fields
    /\ Call.collected_info final = PyDict info
    /\ info = update_dict (collected_info c) fields
    /\ (forall k : string,
          lookup_key info k =
            match lookup_key (rev fields) k with
            | Some v => Some v
            | None => lookup_key (collected_info c) k
            end)
    /\ Call.status final = status_map_get (str_lower status)
    /\ Call.transcript final
       = Some (String.concat nl
                 (transcript c ++ ["Caller: " +:+ speech; "AI: " +:+ reply])%list).
Proof.
  intros Hlive Hspeech Hclient Hmsgs Hcreate Hargs Hcall Hkey Hselect Hcommit
         Hselect2 Hcommit2. cbn zeta.
  rewrite (scheduling_turn e CallSid speech key arguments w c messages text rest fields
             Hlive Hspeech Hclient Hmsgs Hcreate Hargs Hselect Hcommit).
  rewrite Hcall. cbn [snd].
  match goal with
  | |- context [commit_call (set_conversation w CallSid ?c1) ?row] =>
      assert (Hreg : active_conversations (commit_call (set_conversation w CallSid c1) row)
                       !! CallSid = Some c1)
        by (cbn; apply lookup_insert_eq);
      assert (Hrow : calls (db (commit_call (set_conversation w CallSid c1) row)) !! call_id c1
                     = Some row)
        by (cbn; rewrite Hkey; apply lookup_insert_eq);
      rewrite (call_status_commits e2 CallSid status duration _ c1 row Hreg Hrow
                 Hselect2 Hcommit2)
  end.
  eexists. eexists. eexists. split; [reflexivity |].
  split; [cbn; apply lookup_delete_eq |].
  split; [cbn; rewrite Hkey; apply lookup_insert_eq |].
  cbn [Call.action_taken Call.action_details Call.collected_info Call.status Call.transcript
       transcript].
  split; [reflexivity |]. split; [reflexivity |]. split; [reflexivity |].
  split; [reflexivity |]. split; [intros k; apply lookup_merged |].
  split; reflexivity.
Qed.

End FurtherFrames.

(* ===================================================================== *)
(** ** Further properties: the telephony service and the prompt query *)
(* ===================================================================== *)

Section FurtherTelephony.
Context `{PyRuntime}.

(** X27. Every document the service builds ends the turn in one way: a
    response hangs up exactly when [end_call] is set, gathers exactly
    when it is not and [gather_input] is, and never dials; a transfer
    dials and neither gathers nor hangs up; a greeting gathers and
    neither hangs up nor dials. *)
Theorem documents_have_one_directive (message : pyval) (voice number : string)
    (gather_input end_call : bool) :
  (existsb hangs_up (create_response message voice gather_input end_call) = end_call
   /\ existsb gathers (create_response message voice gather_input end_call)
      = negb end_call && gather_input
   /\ existsb dials (create_response message voice gather_input end_call) = false)
  /\ (existsb dials (transfer_call number message voice) = true
      /\ existsb gathers (transfer_call number message voice) = false
      /\ existsb hangs_up (transfer_call number message voice) = false)
  /\ (existsb gathers (create_greeting_response message voice) = true
      /\ existsb hangs_up (create_greeting_response message voice) = false
      /\ existsb dials (create_greeting_response message voice) = false).
Proof.
  split; [| split].
  - destruct end_call, gather_input; repeat split.
  - unfold transfer_call. destruct (truthy message); repeat split.
  - repeat split.
Qed.

(** X28. [get_call_details] does not raise: without a client it returns
    the empty dict, and with one it returns a dict that has the key
    "error", holding the message of the exception, exactly when the
    fetch raised, and the status of the fetched call otherwise. *)
Theorem call_details_mark_the_error (t : Twilio.api) (self : TelephonyService)
    (call_sid : string) :
  match twilio_client self, Twilio.fetch t call_sid with
  | None, _ => get_call_details t self call_sid = []
  | Some _, Raise ex =>
      get_call_details t self call_sid = [(PyStr "error", PyStr (exn_str ex))]
  | Some _, Ok call =>
      lookup_key (get_call_details t self call_sid) "error" = None
      /\ lookup_key (get_call_details t self call_sid) "status" = Some (Twilio.status call)
      /\ length (get_call_details t self call_sid) = 8%nat
  end.
Proof.
  unfold get_call_details. destruct (twilio_client self); [| reflexivity].
  destruct (Twilio.fetch t call_sid); cbn; [repeat split | reflexivity].
Qed.

(** X29. [purchase_phone_number] returns a number only when the service
    has a client, the search returned at least one number and the
    purchase of the first of them succeeded; the number returned is the
    one the provider reports for that purchase. An empty area code
    searches like no area code. *)
Theorem purchase_takes_the_first_number (t : Twilio.api) (self : TelephonyService)
    (area_code : option string) (bought : string) :
  fst (purchase_phone_number t self area_code) = Some bought <->
  twilio_client self <> None
  /\ exists first others,
       Twilio.available_numbers t
         (match area_code with
          | Some "" => None
          | _ => area_code
          end) = Ok (first :: others)
       /\ Twilio.create_number t first = Ok bought.
Proof.
  unfold purchase_phone_number.
  assert (Hcode : match area_code with
                  | Some code => if String.eqb code "" then None else Some code
                  | None => None
                  end
                  = match area_code with Some "" => None | _ => area_code end).
  { destruct area_code as [[| a code] |]; reflexivity. }
  rewrite Hcode.
  destruct (twilio_client self) as [credentials |]; cbn.
  - destruct (Twilio.available_numbers t _) as [[| first others] | ex]; cbn.
    + split; [discriminate |]. intros (_ & first & others & [=] & _).
    + destruct (Twilio.create_number t first) as [number | ex] eqn:Hbuy; cbn.
      * split.
        -- intros [= ->]. split; [discriminate |]. exists first, others. split; [reflexivity | exact Hbuy].
        -- intros (_ & first' & others' & [= <- <-] & Hbought).
           rewrite Hbuy in Hbought. injection Hbought as ->. reflexivity.
      * split; [discriminate |].
        intros (_ & first' & others' & [= <- <-] & Hbought). congruence.
    + split; [discriminate |]. intros (_ & first & others & [=] & _).
  - split; [discriminate |]. intros [Hclient _]. contradiction.
Qed.

End FurtherTelephony.

Section FurtherQuery.

Lemma insert_by_priority_perm (p : Prompt.t) (l : list Prompt.t) :
  insert_by_priority p l ≡ₚ p :: l.
Proof.
  induction l as [| q rest IH]; cbn; [reflexivity |].
  destruct (Prompt.priority q <=? Prompt.priority p); [reflexivity |].
  rewrite IH. apply perm_swap.
Qed.

Lemma insert_by_priority_sorted (p : Prompt.t) (l : list Prompt.t) :
  Sorted (fun a b => Prompt.priority b <= Prompt.priority a) l ->
  Sorted (fun a b => Prompt.priority b <= Prompt.priority a) (insert_by_priority p l).
Proof.
  induction l as [| q rest IH]; intros Hsorted; cbn.
  - constructor; constructor.
  - destruct (Prompt.priority q <=? Prompt.priority p) eqn:Hle.
    + apply Z.leb_le in Hle. constructor; [exact Hsorted |]. constructor. exact Hle.
    + apply Z.leb_gt in Hle. inversion Hsorted as [| ? ? Hrest Hhead]; subst.
      constructor; [apply IH; exact Hrest |].
      destruct rest as [| r rest']; cbn.
      * constructor. lia.
      * destruct (Prompt.priority r <=? Prompt.priority p).
        -- constructor. lia.
        -- inversion Hhead; subst. constructor. assumption.
Qed.

(** Rows of the table that are in descending order of priority already,
    rows of equal priority included, come out in table order. *)
Lemma insert_in_front (p : Prompt.t) (l : list Prompt.t) :
  Sorted (fun a b => Prompt.priority b <= Prompt.priority a) (p :: l) ->
  insert_by_priority p l = p :: l.
Proof.
  intros Hsorted. destruct l as [| q rest]; [reflexivity |]. cbn.
  inversion Hsorted as [| ? ? _ Hhead]; subst. inversion Hhead as [| ? ? Hle]; subst.
  apply Z.leb_le in Hle. rewrite Hle. reflexivity.
Qed.

Lemma sorted_rows_keep_table_order (l : list Prompt.t) :
  Sorted (fun a b => Prompt.priority b <= Prompt.priority a) l ->
  foldr insert_by_priority [] l = l.
Proof.
  induction l as [| p rest IH]; intros Hsorted; cbn; [reflexivity |].
  inversion Hsorted as [| ? ? Hrest _]; subst.
  rewrite (IH Hrest). apply insert_in_front. exact Hsorted.
Qed.

(** Three prompts of one priority below a fourth: the fourth comes
    first, the three follow in table order. *)
Lemma tied_prompts_in_table_order :
  map Prompt.id (select_prompts Situations.tied 1) = [3; 1; 2; 4].
Proof. vm_compute. reflexivity. Qed.

(** X30. The prompts a call start hands to the handler are exactly the
    active prompts of the business, each once, in descending order of
    priority. *)
Theorem prompts_are_selected_in_priority_order (d : database) (business_id : Z) :
  Sorted (fun a b => Prompt.priority b <= Prompt.priority a) (select_prompts d business_id)
  /\ select_prompts d business_id
     ≡ₚ filter (fun p => Prompt.business_id p = business_id /\ Prompt.is_active p = true)
          (prompts d).
Proof.
  unfold select_prompts.
  assert (Hfilter :
            filter (fun p => bool_decide (Prompt.business_id p = business_id)
                             && Prompt.is_active p) (prompts d)
            = filter (fun p => Prompt.business_id p = business_id
                               /\ Prompt.is_active p = true) (prompts d)).
  { apply list_filter_iff. intros p.
    rewrite andb_True, bool_decide_spec, Is_true_true. reflexivity. }
  rewrite Hfilter.
  generalize (filter (fun p => Prompt.business_id p = business_id
                               /\ Prompt.is_active p = true) (prompts d)).
  intros l. induction l as [| p rest [IHsorted IHperm]]; cbn.
  - split; [constructor | reflexivity].
  - split.
    + apply insert_by_priority_sorted. exact IHsorted.
    + rewrite insert_by_priority_perm, IHperm. reflexivity.
Qed.

End FurtherQuery.

(* ===================================================================== *)
(** ** The further properties on concrete situations *)
(* ===================================================================== *)

Section FurtherCases.
Import Scenario Situations.
#[local] Existing Instance Reference.runtime.

(** The model answers with a choice that has no content. *)
Lemma no_text_witness :
  analyze_sentiment model_silent receptionist "hi" = "neutral"
  /\ summarize_call model_silent receptionist = "Unable to generate summary.".
Proof.
  refine (no_text_gives_fixed_answers model_silent receptionist "hi" _).
  intros request. reflexivity.
Defined.



(** Hours that name a holiday and no weekday. *)
Lemma default_hours_witness :
  _format_hours (PyDict [(PyStr "holiday", PyStr "closed")])
    = Ok "Monday-Friday: 9:00 AM - 5:00 PM".
Proof.
  apply (hours_without_weekday_are_default (PyDict [(PyStr "holiday", PyStr "closed")])).
  right. eexists. split; [reflexivity |].
  intros day Hday. cbn in Hday.
  repeat (destruct Hday as [<- | Hday]; [reflexivity |]). destruct Hday.
Defined.

(** Monday given as a str. *)
Lemma weekday_hours_witness :
  exists ex,
    _format_hours (PyDict [(PyStr "monday", PyStr "9-5")]) = Raise ex
    /\ exn_class ex = AttributeError.
Proof.
  apply (weekday_hours_must_be_a_dict [(PyStr "monday", PyStr "9-5")] "monday" (PyStr "9-5")).
  - left. reflexivity.
  - reflexivity.
  - intros day_hours. discriminate.
Defined.

(** The clinic with a null services column. *)
Lemma null_services_witness :
  exists ex, build_system_prompt (business_context_of clinic_null_services) = Raise ex.
Proof.
  apply (null_services_break_the_prompt (business_context_of clinic_null_services)).
  reflexivity.
Defined.

(** The scheduling prompt of the clinic. *)
Lemma decoded_lists_witness :
  prompt_section (prompt_data_of scheduling) =
    Ok ((nl +:+ "When caller mentions: " +:+ String.concat ", " ["schedule"; "book"] +:+ nl
         +:+ "Category: " +:+ py_str (of_option (Prompt.category scheduling)) +:+ nl
         +:+ "Response: " +:+ Prompt.content scheduling +:+ nl
         +:+ "Instructions: " +:+ py_str (of_option (Prompt.ai_instructions scheduling)) +:+ nl)
        +:+ "Collect: " +:+ String.concat ", " ["patient_name"] +:+ nl).
Proof.
  eapply (decoded_lists_are_joined scheduling _ _ ["schedule"; "book"] ["patient_name"]).
  - reflexivity.
  - reflexivity.
  - reflexivity.
  - vm_compute. reflexivity.
  - vm_compute. reflexivity.
Defined.

(** The prompt about opening hours, with text in its unused column. *)
Lemma unread_fields_witness :
  prompt_section
    (prompt_data_of
       {| Prompt.id := Prompt.id opening_hours;
          Prompt.business_id := Prompt.business_id opening_hours;
          Prompt.category := Prompt.category opening_hours;
          Prompt.trigger_phrases := Prompt.trigger_phrases opening_hours;
          Prompt.content := Prompt.content opening_hours;
          Prompt.ai_instructions := Prompt.ai_instructions opening_hours;
          Prompt.requires_info_collection := Prompt.requires_info_collection opening_hours;
          Prompt.fields_to_collect := Some "name and phone";
          Prompt.priority := Prompt.priority opening_hours;
          Prompt.is_active := Prompt.is_active opening_hours |})
  = prompt_section (prompt_data_of opening_hours).
Proof.
  apply (fields_are_read_only_when_collecting opening_hours (Some "name and phone")).
  right. reflexivity.
Defined.

(** The handler of the clinic takes its scheduling prompt. *)
Lemma custom_prompts_witness :
  exists self',
    add_prompts_to_context (new_handler (Some "sk-test") (business_context_of clinic))
      [prompt_data_of scheduling] = Ok self'
    /\ build_system_prompt (business_context self')
       = build_system_prompt (business_context_of clinic)
    /\ exists sections,
         prompt_sections [prompt_data_of scheduling] = Ok sections
         /\ get (business_context self') "custom_prompts"
            = PyStr (nl +:+ nl +:+ "CUSTOM PROMPTS AND RESPONSES:" +:+ nl +:+ sections).
Proof.
  eexists. split; [reflexivity |].
  apply (custom_prompts_extend_the_context
           (new_handler (Some "sk-test") (business_context_of clinic)) _
           [prompt_data_of scheduling]).
  - discriminate.
  - reflexivity.
Defined.

(** A scheduling turn of the call in progress. *)
Lemma continues_witness :
  exists c',
    active_conversations
      (snd (handle_speech_input model_schedules "CA1" (Some "Book me") w0)) !! "CA1" = Some c'
    /\ continues live c'.
Proof.
  apply (speech_turn_continues_the_call model_schedules "CA1" (Some "Book me") w0 live).
  reflexivity.
Defined.


(** The model asks for a transfer; the clinic has a phone number. *)
Lemma transfer_witness :
  exists w',
    handle_speech_input model_transfers "CA1" (Some "A person, please") w0 =
      (Ok (Response [Say (PyStr "One moment please.") "Polly.Joanna"; Dial "+15550111"]
             "application/xml"),
       w')
    /\ db w' = db w0
    /\ is_Some (active_conversations w' !! "CA1").
Proof.
  refine (transfer_needs_a_number model_transfers "CA1" "A person, please" "sk-test" "{}"
            w0 live _ (Some "One moment please.") [] (PyDict []) clinic
            _ _ _ _ _ _ _ _).
  - reflexivity.
  - discriminate.
  - reflexivity.
  - reflexivity.
  - reflexivity.
  - vm_compute. reflexivity.
  - reflexivity.
  - reflexivity.
Defined.

(** The model ends the call. *)
Lemma end_call_witness :
  exists w',
    handle_speech_input model_ends "CA1" (Some "That is all, thanks") w0 =
      (Ok (Response [Say (PyStr "Thank you for calling! Have a great day.") "Polly.Joanna";
                     Hangup]
             "application/xml"),
       w')
    /\ db w' = db w0
    /\ is_Some (active_conversations w' !! "CA1").
Proof.
  refine (end_call_hangs_up model_ends "CA1" "That is all, thanks" "sk-test" "{}"
            w0 live _ None [] (PyDict []) _ _ _ _ _ _).
  - reflexivity.
  - discriminate.
  - reflexivity.
  - reflexivity.
  - reflexivity.
  - vm_compute. reflexivity.
Defined.

(** A turn of a call whose handler has no client. *)
Lemma unconfigured_turn_witness :
  exists c',
    handle_speech_input quiet "CA1" (Some "Hello?") mute =
      (Ok (Response
             [Gather "speech" "/api/webhooks/twilio/handle-input" "POST" "auto" "en-US"
                [Say (PyStr "I apologize, but I'm having technical difficulties. Please hold while I transfer you to our staff.")
                     "Polly.Joanna"];
              Say (PyStr "Are you still there?") "Polly.Joanna";
              Redirect "/api/webhooks/twilio/voice"]
             "application/xml"),
       set_conversation mute "CA1" c')
    /\ active_conversations (snd (handle_speech_input quiet "CA1" (Some "Hello?") mute)) !! "CA1"
       = Some c'
    /\ db (snd (handle_speech_input quiet "CA1" (Some "Hello?") mute)) = db mute
    /\ ai_handler c' = unconfigured
    /\ collected_info c' = []
    /\ transcript c'
       = ["Caller: Hello?";
          "AI: I apologize, but I'm having technical difficulties. Please hold while I transfer you to our staff."].
Proof.
  refine (unconfigured_turn quiet "CA1" "Hello?" mute
            {| ai_handler := unconfigured; call_id := 1; business_id := 1;
               collected_info := []; transcript := [] |} _ _ _).
  - reflexivity.
  - discriminate.
  - reflexivity.
Defined.


(** A new caller while the first call is in progress. *)
Lemma call_start_witness :
  exists (w' : world) (row : Call.t),
    handle_incoming_call (Some "sk-test") quiet "CA9" (Some "+15550188") (Some "+15550100") w0 =
      (Ok (Response
             [Gather "speech" "/api/webhooks/twilio/handle-input" "POST" "auto" "en-US"
                [Say (PyStr "Hello!") "Polly.Joanna"];
              Say (PyStr "I didn't catch that. How may I help you?") "Polly.Joanna";
              Redirect "/api/webhooks/twilio/voice"]
             "application/xml"),
       w')
    /\ calls (db w') !! 2 = Some row
    /\ Call.status row = IN_PROGRESS
    /\ Call.twilio_call_sid row = Some "CA9"
    /\ Call.caller_number row = Some "+15550188"
    /\ Call.called_number row = Some "+15550100"
    /\ Call.business_id row = 1
    /\ (forall id old, calls (db w0) !! id = Some old -> calls (db w') !! id = Some old).
Proof.
  refine (call_start_greets_and_records (Some "sk-test") quiet "CA9"
            (Some "+15550188") (Some "+15550100") w0 clinic _ _ _ _).
  - reflexivity.
  - intros op. reflexivity.
  - reflexivity.
Defined.

(** A call to the clinic once it has the prompt without trigger phrases. *)
Lemma null_trigger_phrases_witness :
  exists (ex : exn) (w' : world),
    handle_incoming_call (Some "sk-test") quiet "CA9" (Some "+15550188") (Some "+15550100")
      with_untriggered = (Raise ex, w')
    /\ exn_class ex = TypeError
    /\ active_conversations w' = active_conversations with_untriggered
    /\ calls (db w') !! next_call_id (calls (db with_untriggered))
       = Some (new_call (db with_untriggered) clinic "CA9"
                 (Some "+15550188") (Some "+15550100")).
Proof.
  apply (null_trigger_phrases_fail_the_call_start (Some "sk-test") quiet "CA9"
           (Some "+15550188") (Some "+15550100") with_untriggered clinic
           untriggered [scheduling]).
  - reflexivity.
  - intros op. reflexivity.
  - reflexivity.
  - reflexivity.
Defined.

(** A call to the number two businesses share. *)
Lemma shared_number_witness :
  exists ex,
    handle_incoming_call (Some "sk-test") quiet "CA9" (Some "+15550188") (Some "+15550100")
      shared_number = (Raise ex, shared_number)
    /\ exn_class ex = MultipleResultsFound.
Proof.
  apply (shared_number_fails_the_call_start (Some "sk-test") quiet "CA9"
           (Some "+15550188") (Some "+15550100") shared_number clinic twin []).
  - reflexivity.
  - reflexivity.
Defined.

(** The status event of the call in progress. *)
Lemma status_keeps_witness :
  exists (w' : world) (final : Call.t),
    handle_call_status quiet "CA1" "completed" (Some 42) w0 = (Ok acknowledgement, w')
    /\ calls (db w') !! 1 = Some final
    /\ Call.collected_info final = PyDict []
    /\ Call.action_taken final = None
    /\ Call.action_details final = PyDict []
    /\ Call.id final = 1
    /\ Call.business_id final = 1
    /\ Call.twilio_call_sid final = Some "CA1"
    /\ Call.caller_number final = Some "+15550199"
    /\ Call.called_number final = Some "+15550100".
Proof.
  refine (status_keeps_the_appointment quiet "CA1" "completed" (Some 42) w0 live record
            _ _ _ _); reflexivity.
Defined.

(** The status event of the call whose record was deleted. *)
Lemma status_without_record_witness :
  handle_call_status quiet "CA1" "completed" (Some 42) record_gone
    = (Ok acknowledgement, del_conversation record_gone "CA1")
  /\ active_conversations
       (snd (handle_call_status quiet "CA1" "completed" (Some 42) record_gone)) !! "CA1"
     = None
  /\ db (snd (handle_call_status quiet "CA1" "completed" (Some 42) record_gone))
     = db record_gone.
Proof.
  apply (status_without_record_only_evicts quiet "CA1" "completed" (Some 42) record_gone live);
    reflexivity.
Defined.

(** The call in progress has one exchange: "hi", "hello". *)
Lemma sentiment_witness :
  exists (w' : world) (final : Call.t),
    handle_call_status quiet "CA1" "completed" (Some 42) w0 = (Ok acknowledgement, w')
    /\ calls (db w') !! 1 = Some final
    /\ Call.sentiment final = Some (analyze_sentiment quiet receptionist "hi").
Proof.
  refine (sentiment_reads_the_utterances quiet "CA1" "completed" (Some 42) w0 live record
            [("hi", "hello")] _ _ _ _ _ _).
  - reflexivity.
  - reflexivity.
  - reflexivity.
  - reflexivity.
  - reflexivity.
  - constructor; [reflexivity | constructor].
Defined.

(** A scheduling turn of the call in progress. *)
Lemma speech_turn_store_witness :
  let after := db (snd (handle_speech_input model_schedules "CA1" (Some "Book me") w0)) in
  after = db w0
  \/ exists (row : Call.t) (info details : pyval) (action : option string),
       calls (db w0) !! call_id live = Some row
       /\ after =
            store_call (db w0)
              {| Call.id := Call.id row;
                 Call.business_id := Call.business_id row;
                 Call.twilio_call_sid := Call.twilio_call_sid row;
                 Call.caller_number := Call.caller_number row;
                 Call.called_number := Call.called_number row;
                 Call.status := Call.status row;
                 Call.duration_seconds := Call.duration_seconds row;
                 Call.transcript := Call.transcript row;
                 Call.call_summary := Call.call_summary row;
                 Call.sentiment := Call.sentiment row;
                 Call.collected_info := info;
                 Call.action_taken := action;
                 Call.action_details := details |}.
Proof.
  apply (speech_turn_writes_only_the_appointment model_schedules "CA1" (Some "Book me")
           w0 live).
  reflexivity.
Defined.

(** Two calls in progress: the webhooks of the first leave the second. *)
Lemma other_calls_witness :
  active_conversations
    (snd (handle_incoming_call (Some "sk-test") model_schedules "CA1"
            (Some "+15550199") (Some "+15550100") busy_hour)) !! "CA2"
    = Some other_live
  /\ active_conversations
       (snd (handle_speech_input model_schedules "CA1" (Some "Book me") busy_hour)) !! "CA2"
     = Some other_live
  /\ active_conversations
       (snd (handle_call_status model_schedules "CA1" "completed" (Some 42) busy_hour)) !! "CA2"
     = Some other_live.
Proof.
  refine (webhooks_keep_other_calls (Some "sk-test") model_schedules "CA1" "CA2" busy_hour
            (Some "+15550199") (Some "+15550100") (Some "Book me") "completed" (Some 42) _).
  discriminate.
Defined.

(** Jane's appointment, then the end of the call. *)
Lemma appointment_witness :
  exists (w2 : world) (final : Call.t) (info : pydict),
    handle_call_status quiet "CA1" "completed" (Some 42)
      (snd (handle_speech_input model_schedules "CA1" (Some "Book me") w0))
      = (Ok acknowledgement, w2)
    /\ active_conversations w2 !! "CA1" = None
    /\ calls (db w2) !! 1 = Some final
    /\ Call.action_taken final = Some "appointment_scheduled"
    /\ Call.action_details final = PyDict jane_fields
    /\ Call.collected_info final = PyDict info
    /\ info = update_dict [] jane_fields
    /\ (forall k : string,
          lookup_key info k =
            match lookup_key (rev jane_fields) k with
            | Some v => Some v
            | None => lookup_key [] k
            end)
    /\ Call.status final = COMPLETED
    /\ Call.transcript final
       = Some (String.concat nl
                 (["Caller: hi"; "AI: hello"]
                  ++ ["Caller: Book me";
                      "AI: I've scheduled your appointment for 2024-06-01 at 10:00. We'll see you then, Jane!"])%list).
Proof.
  refine (appointment_survives_the_hang_up model_schedules quiet "CA1" "Book me" "sk-test"
            jane "completed" (Some 42) w0 live _ None [] jane_fields record
            _ _ _ _ _ _ _ _ _ _ _ _).
  - reflexivity.
  - discriminate.
  - reflexivity.
  - reflexivity.
  - reflexivity.
  - vm_compute. reflexivity.
  - reflexivity.
  - reflexivity.
  - reflexivity.
  - reflexivity.
  - reflexivity.
  - reflexivity.
Defined.

End FurtherCases.
